(** * use-mouse-delta: a model of the [useMouseDelta] React hook

    The development follows [src/index.ts].  The hook keeps eight pieces of
    React state, registers three listeners on [window] inside a [useEffect]
    and returns a snapshot of six of the state values.

    Modelling choices:
    - pointer coordinates are JavaScript numbers that the host reports as
      whole pixels; they are integers ([Z]) here, with exact subtraction;
    - [boolean | null] and [string | null] are [option bool] and
      [option string];
    - a listener is a computation on the pending React state that either
      completes or throws (state setters called before a throw are kept,
      as React keeps them);
    - the listeners are closures over the values of the render in which the
      effect last ran; the effect runs again only when one of its
      dependencies [isMouseDown, lastY, deltaY, deltaX] changes;
    - every event is handled, rendered and committed before the next one is
      dispatched. *)

From Stdlib Require Import ZArith String List Bool Lia DecimalString.
Import ListNotations.
Open Scope Z_scope.
Open Scope string_scope.

(** ** Events of the host *)

Record Touch := { clientX : Z; clientY : Z }.

Record EventTarget := { className : string }.

Inductive MouseEventType := mousedown | mouseup | mousemove.

Inductive TouchEventType := touchstart | touchend | touchmove.

(** [TouchEvent | MouseEvent]: a mouse event carries its viewport
    coordinates [x], [y]; a touch event carries the lists [touches] and
    [changedTouches]. *)
Inductive Event :=
| MouseEvent (ty : MouseEventType) (x y : Z) (target : EventTarget)
| TouchEvent (ty : TouchEventType) (touches changedTouches : list Touch)
             (target : EventTarget).

Definition mouseTypeName (ty : MouseEventType) : string :=
  match ty with
  | mousedown => "mousedown"
  | mouseup => "mouseup"
  | mousemove => "mousemove"
  end.

Definition touchTypeName (ty : TouchEventType) : string :=
  match ty with
  | touchstart => "touchstart"
  | touchend => "touchend"
  | touchmove => "touchmove"
  end.

(** [e.type] *)
Definition type (e : Event) : string :=
  match e with
  | MouseEvent ty _ _ _ => mouseTypeName ty
  | TouchEvent ty _ _ _ => touchTypeName ty
  end.

(** [e.target] *)
Definition target (e : Event) : EventTarget :=
  match e with
  | MouseEvent _ _ _ t => t
  | TouchEvent _ _ _ t => t
  end.

(** [s.includes(sub)] *)
Definition includes (s sub : string) : bool :=
  match index 0 sub s with
  | Some _ => true
  | None => false
  end.

(** ** Completions: a value or a thrown error *)

Inductive Error := TypeError.

Inductive Completion (A : Type) :=
| Normal (a : A)
| Throw (err : Error).

Arguments Normal {A} a.
Arguments Throw {A} err.

(** [touches[0] || changedTouches[0]]: a [Touch] object is truthy, so the
    right operand is taken exactly when [touches] is empty; the result is
    [undefined] ([None]) when both lists are empty. *)
Definition firstTouch (touches changedTouches : list Touch) : option Touch :=
  match touches with
  | t :: _ => Some t
  | [] => hd_error changedTouches
  end.

(** Reading a property of [undefined] throws a [TypeError].  The branch on
    [e.type.includes('touch')] is followed by a cast; the two branches where
    the cast does not match the event cannot be taken, because the type
    names of mouse events do not contain "touch" and those of touch events
    do (lemmas [includes_mouse_type], [includes_touch_type]). *)
Definition getY (e : Event) : Completion Z :=
  if includes (type e) "touch" then
    match e with
    | TouchEvent _ touches changedTouches _ =>
        match firstTouch touches changedTouches with
        | Some touch => Normal (clientY touch)
        | None => Throw TypeError
        end
    | MouseEvent _ _ _ _ => Throw TypeError
    end
  else
    match e with
    | MouseEvent _ _ y _ => Normal y
    | TouchEvent _ _ _ _ => Throw TypeError
    end.

Definition getX (e : Event) : Completion Z :=
  if includes (type e) "touch" then
    match e with
    | TouchEvent _ touches changedTouches _ =>
        match firstTouch touches changedTouches with
        | Some touch => Normal (clientX touch)
        | None => Throw TypeError
        end
    | MouseEvent _ _ _ _ => Throw TypeError
    end
  else
    match e with
    | MouseEvent _ x _ _ => Normal x
    | TouchEvent _ _ _ _ => Throw TypeError
    end.

(** ** The React state of the hook *)

Record State := {
  lastY : Z;
  lastX : Z;
  deltaY : Z;
  deltaX : Z;
  goingDown : option bool;
  goingRight : option bool;
  isMouseDown : bool;
  touchedElement : option string
}.

(** The arguments of the eight [useState] calls. *)
Definition initialState : State :=
  {| lastY := 0; lastX := 0; deltaY := 0; deltaX := 0;
     goingDown := None; goingRight := None;
     isMouseDown := false; touchedElement := None |}.

(** A listener body: it updates the pending state and completes or throws. *)
Definition Handler (A : Type) : Type := State -> Completion A * State.

Definition ret {A} (a : A) : Handler A := fun s => (Normal a, s).

Definition bind {A B} (m : Handler A) (k : A -> Handler B) : Handler B :=
  fun s =>
    match m s with
    | (Normal a, s') => k a s'
    | (Throw err, s') => (Throw err, s')
    end.

Definition eval {A} (c : Completion A) : Handler A := fun s => (c, s).

Declare Scope handler_scope.
Delimit Scope handler_scope with handler.
Notation "x <- m ;; k" := (bind m (fun x => k))
  (at level 61, m at next level, right associativity) : handler_scope.
Notation "m ;; k" := (bind m (fun _ => k))
  (at level 61, right associativity) : handler_scope.

Definition setLastY (v : Z) : Handler unit := fun s =>
  (Normal tt,
   {| lastY := v; lastX := lastX s; deltaY := deltaY s; deltaX := deltaX s;
      goingDown := goingDown s; goingRight := goingRight s;
      isMouseDown := isMouseDown s; touchedElement := touchedElement s |}).

Definition setLastX (v : Z) : Handler unit := fun s =>
  (Normal tt,
   {| lastY := lastY s; lastX := v; deltaY := deltaY s; deltaX := deltaX s;
      goingDown := goingDown s; goingRight := goingRight s;
      isMouseDown := isMouseDown s; touchedElement := touchedElement s |}).

Definition setDeltaY (v : Z) : Handler unit := fun s =>
  (Normal tt,
   {| lastY := lastY s; lastX := lastX s; deltaY := v; deltaX := deltaX s;
      goingDown := goingDown s; goingRight := goingRight s;
      isMouseDown := isMouseDown s; touchedElement := touchedElement s |}).

Definition setDeltaX (v : Z) : Handler unit := fun s =>
  (Normal tt,
   {| lastY := lastY s; lastX := lastX s; deltaY := deltaY s; deltaX := v;
      goingDown := goingDown s; goingRight := goingRight s;
      isMouseDown := isMouseDown s; touchedElement := touchedElement s |}).

Definition setGoingDown (v : option bool) : Handler unit := fun s =>
  (Normal tt,
   {| lastY := lastY s; lastX := lastX s; deltaY := deltaY s;
      deltaX := deltaX s; goingDown := v; goingRight := goingRight s;
      isMouseDown := isMouseDown s; touchedElement := touchedElement s |}).

Definition setGoingRight (v : option bool) : Handler unit := fun s =>
  (Normal tt,
   {| lastY := lastY s; lastX := lastX s; deltaY := deltaY s;
      deltaX := deltaX s; goingDown := goingDown s; goingRight := v;
      isMouseDown := isMouseDown s; touchedElement := touchedElement s |}).

Definition setIsMouseDown (v : bool) : Handler unit := fun s =>
  (Normal tt,
   {| lastY := lastY s; lastX := lastX s; deltaY := deltaY s;
      deltaX := deltaX s; goingDown := goingDown s;
      goingRight := goingRight s;
      isMouseDown := v; touchedElement := touchedElement s |}).

Definition setTouchedElement (v : option string) : Handler unit := fun s =>
  (Normal tt,
   {| lastY := lastY s; lastX := lastX s; deltaY := deltaY s;
      deltaX := deltaX s; goingDown := goingDown s;
      goingRight := goingRight s;
      isMouseDown := isMouseDown s; touchedElement := v |}).

(** ** The three listeners

    [scope] holds the state values of the render whose effect created the
    listeners; [onMouseMove] is the only one that reads them. *)

Open Scope handler_scope.

Definition onMouseDown (e : Event) : Handler unit :=
  setIsMouseDown true ;;
  y <- eval (getY e) ;;
  setLastY y ;;
  x <- eval (getX e) ;;
  setLastX x ;;
  setTouchedElement (Some (className (target e))).

Definition onMouseMove (scope : State) (e : Event) : Handler unit :=
  if isMouseDown scope then
    y <- eval (getY e) ;;
    let dY := y - lastY scope in
    x <- eval (getX e) ;;
    let dX := x - lastX scope in
    setGoingDown (Some (dY >? deltaY scope)) ;;
    setGoingRight (Some (dX >? deltaX scope)) ;;
    setDeltaY dY ;;
    setDeltaX dX
  else ret tt.

Definition onMouseUp (_ : Event) : Handler unit :=
  setIsMouseDown false ;;
  setDeltaY 0 ;;
  setDeltaX 0 ;;
  setGoingDown None ;;
  setGoingRight None.

Close Scope handler_scope.

(** ** Subscription *)

Inductive Mode := touch | mouse | both.

(** The default of the hook's parameter: [mode = 'both']. *)
Definition defaultMode : Mode := both.

Definition isMobile (mode : Mode) : bool :=
  match mode with touch | both => true | mouse => false end.

Definition isDesktop (mode : Mode) : bool :=
  match mode with mouse | both => true | touch => false end.

Definition EventListener : Type := Event -> Handler unit.

(** The [addEventListener] calls of the effect body, in order. *)
Definition addEventListeners (mode : Mode) (scope : State)
  : list (string * EventListener) :=
  (if isDesktop mode then
     [("mousedown", onMouseDown);
      ("mouseup", onMouseUp);
      ("mousemove", onMouseMove scope)]
   else []) ++
  (if isMobile mode then
     [("touchstart", onMouseDown);
      ("touchend", onMouseUp);
      ("touchmove", onMouseMove scope)]
   else []).

(** The listeners that [window] calls for an event of type [ty]. *)
Definition listenersFor (ty : string) (registry : list (string * EventListener))
  : list EventListener :=
  map snd (filter (fun l => String.eqb (fst l) ty) registry).

(** An error thrown by a listener is reported by the host and does not stop
    the remaining listeners; the state updates it made are kept. *)
Definition callListeners (ls : list EventListener) (e : Event) (s : State)
  : State :=
  fold_left (fun s l => snd (l e s)) ls s.

(** ** The mounted hook *)

(** [rendered]: the state values of the latest render.  [scope]: the values
    of the render whose effect registered the current listeners. *)
Record Hook := { rendered : State; scope : State }.

(** The dependency array [[isMouseDown, lastY, deltaY, deltaX]]. *)
Definition deps (s : State) : bool * Z * Z * Z :=
  (isMouseDown s, lastY s, deltaY s, deltaX s).

Definition depsChanged (old new : State) : bool :=
  negb (Bool.eqb (isMouseDown old) (isMouseDown new)
        && Z.eqb (lastY old) (lastY new)
        && Z.eqb (deltaY old) (deltaY new)
        && Z.eqb (deltaX old) (deltaX new)).

(** A render with the new state values: the effect is cleaned up and run
    again (the listeners are replaced by closures over the new values) only
    when a dependency differs from the previous render. *)
Definition render (h : Hook) (s : State) : Hook :=
  {| rendered := s;
     scope := if depsChanged (rendered h) s then s else scope h |}.

Definition mount : Hook :=
  {| rendered := initialState; scope := initialState |}.

Definition dispatchEvent (mode : Mode) (h : Hook) (e : Event) : Hook :=
  render h
    (callListeners
       (listenersFor (type e) (addEventListeners mode (scope h)))
       e (rendered h)).

Definition dispatchAll (mode : Mode) (h : Hook) (es : list Event) : Hook :=
  fold_left (dispatchEvent mode) es h.

(** The object returned by the hook. *)
Record Snapshot := {
  snap_deltaY : Z;
  snap_deltaX : Z;
  snap_isMouseDown : bool;
  snap_touchedElement : option string;
  snap_goingDown : option bool;
  snap_goingRight : option bool
}.

Definition useMouseDelta (h : Hook) : Snapshot :=
  {| snap_deltaY := deltaY (rendered h);
     snap_deltaX := deltaX (rendered h);
     snap_isMouseDown := isMouseDown (rendered h);
     snap_touchedElement := touchedElement (rendered h);
     snap_goingDown := goingDown (rendered h);
     snap_goingRight := goingRight (rendered h) |}.

(** States the hook can be in: those produced from the mounted hook by some
    sequence of events. *)
Definition reachable (mode : Mode) (h : Hook) : Prop :=
  exists es, h = dispatchAll mode mount es.

(** ** Vocabulary for the statements *)

(** Press-class, move-class and release-class events of either device. *)
Definition isPress (e : Event) : bool :=
  match e with
  | MouseEvent mousedown _ _ _ | TouchEvent touchstart _ _ _ => true
  | _ => false
  end.

Definition isMove (e : Event) : bool :=
  match e with
  | MouseEvent mousemove _ _ _ | TouchEvent touchmove _ _ _ => true
  | _ => false
  end.

Definition isRelease (e : Event) : bool :=
  match e with
  | MouseEvent mouseup _ _ _ | TouchEvent touchend _ _ _ => true
  | _ => false
  end.

Definition isMouseClass (e : Event) : bool :=
  match e with
  | MouseEvent _ _ _ _ => true
  | TouchEvent _ _ _ _ => false
  end.

Definition isTouchClass (e : Event) : bool := negb (isMouseClass e).

(** The mode subscribes to the device class of the event. *)
Definition subscribed (mode : Mode) (e : Event) : bool :=
  if isMouseClass e then isDesktop mode else isMobile mode.

(** The listener that the effect registers for the class of the event; the
    choice does not look at the device. *)
Definition listenerOf (scope : State) (e : Event) : EventListener :=
  if isPress e then onMouseDown
  else if isMove e then onMouseMove scope
  else onMouseUp.

(** The dependencies seen by the listeners are those of the latest render. *)
Definition synced (h : Hook) : Prop := deps (scope h) = deps (rendered h).

(** The at-rest values of the delta and trend fields. *)
Definition atRest (s : State) : Prop :=
  deltaX s = 0 /\ deltaY s = 0 /\ goingDown s = None /\ goingRight s = None.

(** The invariant of the reachable states. *)
Definition restInvariant (h : Hook) : Prop :=
  synced h /\ (isMouseDown (rendered h) = false -> atRest (rendered h)).

(** Pressed, with origin [(px, py)] both in the rendered state and in the
    scope of the registered listeners. *)
Definition pressedAt (px py : Z) (h : Hook) : Prop :=
  isMouseDown (rendered h) = true /\ isMouseDown (scope h) = true /\
  lastX (rendered h) = px /\ lastY (rendered h) = py /\
  lastX (scope h) = px /\ lastY (scope h) = py.

(** Events used in the concrete runs. *)
Definition card : EventTarget := {| className := "card" |}.

Definition mouseAt (ty : MouseEventType) (x y : Z) : Event :=
  MouseEvent ty x y card.

Definition touchAt (ty : TouchEventType) (x y : Z) : Event :=
  TouchEvent ty [{| clientX := x; clientY := y |}]
             [{| clientX := x; clientY := y |}] card.

(** A [touchend] of the only contact: no active touch is left. *)
Definition touchEndAt (x y : Z) : Event :=
  TouchEvent touchend [] [{| clientX := x; clientY := y |}] card.

(** The touch event that reports the same class, point and target as a
    mouse event; touch events are left as they are. *)
Definition toTouchEvent (e : Event) : Event :=
  match e with
  | MouseEvent ty x y tg =>
      let ty' := match ty with
                 | mousedown => touchstart
                 | mouseup => touchend
                 | mousemove => touchmove
                 end in
      TouchEvent ty' [{| clientX := x; clientY := y |}]
                 [{| clientX := x; clientY := y |}] tg
  | TouchEvent _ _ _ _ => e
  end.

(** ** The listener registry of [window]

    [addEventListeners] lists what one run of the effect registers.  The
    definitions below follow the [addEventListener] calls of the effect and
    the [removeEventListener] calls of its cleanup one by one, on a registry
    that the hook shares with other code. *)

Inductive ListenerKind := DownListener | MoveListener | UpListener.

(** A function object registered on [window]: a closure created by the
    [run]-th execution of the effect body over the values [scope] of that
    render, or a listener of other code.  Two closures of the hook are the
    same object when the same run created them for the same function. *)
Inductive Callback :=
| HookCallback (run : nat) (kind : ListenerKind) (scope : State)
| OtherCallback (id : nat).

Definition sameKind (k1 k2 : ListenerKind) : bool :=
  match k1, k2 with
  | DownListener, DownListener
  | MoveListener, MoveListener
  | UpListener, UpListener => true
  | _, _ => false
  end.

Definition sameCallback (a b : Callback) : bool :=
  match a, b with
  | HookCallback r1 k1 _, HookCallback r2 k2 _ =>
      Nat.eqb r1 r2 && sameKind k1 k2
  | OtherCallback i1, OtherCallback i2 => Nat.eqb i1 i2
  | _, _ => false
  end.

Definition Registry : Type := list (string * Callback).

Definition registeredAs (ty : string) (cb : Callback)
           (entry : string * Callback) : bool :=
  String.eqb (fst entry) ty && sameCallback (snd entry) cb.

(** [window.addEventListener(ty, cb)]: a listener already registered for
    the type is not added again. *)
Definition addEventListener (ty : string) (cb : Callback) (w : Registry)
  : Registry :=
  if existsb (registeredAs ty cb) w then w else (w ++ [(ty, cb)])%list.

(** [window.removeEventListener(ty, cb)]: nothing happens when the listener
    is not registered for the type. *)
Fixpoint removeEventListener (ty : string) (cb : Callback) (w : Registry)
  : Registry :=
  match w with
  | [] => []
  | entry :: w' =>
      if registeredAs ty cb entry then w'
      else entry :: removeEventListener ty cb w'
  end.

(** The body of the effect, at its [run]-th execution. *)
Definition effect (mode : Mode) (run : nat) (scope : State) (w : Registry)
  : Registry :=
  let down := HookCallback run DownListener scope in
  let move := HookCallback run MoveListener scope in
  let up := HookCallback run UpListener scope in
  let w1 :=
    if isDesktop mode then
      addEventListener "mousemove" move
        (addEventListener "mouseup" up
           (addEventListener "mousedown" down w))
    else w in
  if isMobile mode then
    addEventListener "touchmove" move
      (addEventListener "touchend" up
         (addEventListener "touchstart" down w1))
  else w1.

(** The function returned by the effect. *)
Definition cleanup (mode : Mode) (run : nat) (scope : State) (w : Registry)
  : Registry :=
  let down := HookCallback run DownListener scope in
  let move := HookCallback run MoveListener scope in
  let up := HookCallback run UpListener scope in
  let w1 :=
    if isDesktop mode then
      removeEventListener "mousemove" move
        (removeEventListener "mouseup" up
           (removeEventListener "mousedown" down w))
    else w in
  if isMobile mode then
    removeEventListener "touchmove" move
      (removeEventListener "touchend" up
         (removeEventListener "touchstart" down w1))
  else w1.

(** What calling a registered function does to the state of the hook. *)
Definition callbackListener (cb : Callback) : EventListener :=
  match cb with
  | HookCallback _ DownListener _ => onMouseDown
  | HookCallback _ MoveListener scope => onMouseMove scope
  | HookCallback _ UpListener _ => onMouseUp
  | OtherCallback _ => fun _ => ret tt
  end.

(** The mounted component with the registry written out: the state values
    of the latest render, the number and the scope of the effect run whose
    closures are registered, and the registry of [window]. *)
Record Component := {
  comp_state : State;
  comp_run : nat;
  comp_scope : State;
  comp_window : Registry
}.

Definition mountOn (mode : Mode) (w : Registry) : Component :=
  {| comp_state := initialState; comp_run := 0; comp_scope := initialState;
     comp_window := effect mode 0 initialState w |}.

(** [window] calls the functions registered for the type of the event, in
    registration order; the new values are rendered; when a dependency
    changed, the cleanup of the previous effect runs and then the effect. *)
Definition deliver (mode : Mode) (c : Component) (e : Event) : Component :=
  let called :=
    filter (fun entry => String.eqb (fst entry) (type e)) (comp_window c) in
  let s' :=
    callListeners (map (fun entry => callbackListener (snd entry)) called)
                  e (comp_state c) in
  if depsChanged (comp_state c) s' then
    {| comp_state := s'; comp_run := S (comp_run c); comp_scope := s';
       comp_window :=
         effect mode (S (comp_run c)) s'
           (cleanup mode (comp_run c) (comp_scope c) (comp_window c)) |}
  else
    {| comp_state := s'; comp_run := comp_run c;
       comp_scope := comp_scope c; comp_window := comp_window c |}.

Definition deliverAll (mode : Mode) (c : Component) (es : list Event)
  : Component :=
  fold_left (deliver mode) es c.

(** Unmounting runs the cleanup of the last effect. *)
Definition unmount (mode : Mode) (c : Component) : Registry :=
  cleanup mode (comp_run c) (comp_scope c) (comp_window c).

(** The six (or three) entries that one run of the effect registers. *)
Definition hookListeners (mode : Mode) (run : nat) (scope : State)
  : Registry :=
  ((if isDesktop mode then
      [("mousedown", HookCallback run DownListener scope);
       ("mouseup", HookCallback run UpListener scope);
       ("mousemove", HookCallback run MoveListener scope)]
    else []) ++
   (if isMobile mode then
      [("touchstart", HookCallback run DownListener scope);
       ("touchend", HookCallback run UpListener scope);
       ("touchmove", HookCallback run MoveListener scope)]
    else []))%list.

(** No entry of the registry is a closure of the hook. *)
Definition noHookCallback (w : Registry) : bool :=
  forallb (fun entry =>
             match snd entry with
             | HookCallback _ _ _ => false
             | OtherCallback _ => true
             end) w.

(** The component with the registry written out and the hook go through
    the same states, and the registry holds, after the entries [w0] of
    other code, the closures of the latest effect run and nothing else. *)
Definition tracks (mode : Mode) (w0 : Registry) (c : Component) (h : Hook)
  : Prop :=
  comp_state c = rendered h /\ comp_scope c = scope h /\
  comp_window c = (w0 ++ hookListeners mode (comp_run c) (comp_scope c))%list.

(** ** Summaries of a run of events *)

(** The event carries a point that the extractors can read. *)
Definition hasPoint (e : Event) : bool :=
  match getY e with
  | Normal _ => true
  | Throw _ => false
  end.

(** A press that the mode listens to and that carries a point. *)
Definition recordsPress (mode : Mode) (e : Event) : bool :=
  isPress e && subscribed mode e && hasPoint e.

(** The last such press of a run, [init] when there is none. *)
Definition lastPress (mode : Mode) (es : list Event) (init : option Event)
  : option Event :=
  fold_left (fun acc e => if recordsPress mode e then Some e else acc)
            es init.

(** Whether the last press or release that the mode listens to was a
    press, [init] when there is none. *)
Definition pressedAfter (mode : Mode) (es : list Event) (init : bool) : bool :=
  fold_left (fun acc e =>
               if subscribed mode e then
                 if isPress e then true
                 else if isRelease e then false
                 else acc
               else acc)
            es init.

(** The origin and the touched element are those of the press [p], or the
    initial ones. *)
Definition originOf (p : option Event) (s : State) : Prop :=
  match p with
  | Some e =>
      touchedElement s = Some (className (target e)) /\
      getX e = Normal (lastX s) /\ getY e = Normal (lastY s)
  | None => touchedElement s = None /\ lastX s = 0 /\ lastY s = 0
  end.

(** ** The consumers shown in the README

    [getTransform] and [getHeight] of the draggable sheet take [deltaY] from
    the hook.  A number is printed in decimal. *)

Definition numberToString (n : Z) : string :=
  NilZero.string_of_int (Z.to_int n).

Definition getTransform (open deltaY : Z) (scrollOnTop : bool) : string :=
  let isOpen := Z.eqb open 1 || Z.eqb open 2 in
  if negb isOpen then "100%"
  else if Z.gtb deltaY 0 && scrollOnTop then numberToString deltaY ++ "px"
  else "0px".

(** [quotientToString deltaY] stands for the text of the floating-point
    quotient [deltaY / 3]; the result is [undefined] ([None]) when no
    [return] is reached. *)
Definition getHeight (quotientToString : Z -> string)
           (open deltaY : Z) (scrollOnTop scrollOnBottom : bool)
  : option string :=
  let isOpen := Z.eqb open 1 || Z.eqb open 2 in
  if negb isOpen then Some "70%"
  else if Z.eqb open 1 then
    if Z.ltb deltaY 0 && scrollOnBottom
    then Some ("calc(70% - " ++ numberToString deltaY ++ "px)")
    else None
  else
    if Z.gtb deltaY 0 && scrollOnTop
    then Some ("calc(100% - " ++ quotientToString deltaY ++ "px)")
    else None.

(** * Basic facts about the model *)

Section Extraction.

Lemma includes_mouse_type (ty : MouseEventType) :
  includes (mouseTypeName ty) "touch" = false.
Proof. destruct ty; reflexivity. Qed.

Lemma includes_touch_type (ty : TouchEventType) :
  includes (touchTypeName ty) "touch" = true.
Proof. destruct ty; reflexivity. Qed.

Lemma getY_mouse ty x y tg : getY (MouseEvent ty x y tg) = Normal y.
Proof. unfold getY; simpl; now rewrite includes_mouse_type. Qed.

Lemma getX_mouse ty x y tg : getX (MouseEvent ty x y tg) = Normal x.
Proof. unfold getX; simpl; now rewrite includes_mouse_type. Qed.

Lemma getY_touch ty ts cs tg :
  getY (TouchEvent ty ts cs tg) =
  match firstTouch ts cs with
  | Some t => Normal (clientY t)
  | None => Throw TypeError
  end.
Proof. unfold getY; simpl; now rewrite includes_touch_type. Qed.

Lemma getX_touch ty ts cs tg :
  getX (TouchEvent ty ts cs tg) =
  match firstTouch ts cs with
  | Some t => Normal (clientX t)
  | None => Throw TypeError
  end.
Proof. unfold getX; simpl; now rewrite includes_touch_type. Qed.

(** Both extractors succeed or both throw. *)
Lemma getX_getY_agree e :
  (exists x y, getX e = Normal x /\ getY e = Normal y) \/
  (getX e = Throw TypeError /\ getY e = Throw TypeError).
Proof.
  destruct e as [ty x y tg | ty ts cs tg].
  - left; exists x, y; now rewrite getX_mouse, getY_mouse.
  - rewrite getX_touch, getY_touch.
    destruct (firstTouch ts cs) as [t|]; [left | right]; eauto.
Qed.

End Extraction.

Section Listeners.

Variables (e : Event) (s : State).

Lemma onMouseDown_ok x y :
  getX e = Normal x -> getY e = Normal y ->
  onMouseDown e s =
  (Normal tt,
   {| lastY := y; lastX := x; deltaY := deltaY s; deltaX := deltaX s;
      goingDown := goingDown s; goingRight := goingRight s;
      isMouseDown := true;
      touchedElement := Some (className (target e)) |}).
Proof.
  intros Hx Hy. unfold onMouseDown, bind, eval; simpl.
  now rewrite Hy, Hx.
Qed.

(** When extraction throws, only [setIsMouseDown(true)] has happened. *)
Lemma onMouseDown_throw :
  getY e = Throw TypeError ->
  onMouseDown e s =
  (Throw TypeError,
   {| lastY := lastY s; lastX := lastX s; deltaY := deltaY s;
      deltaX := deltaX s; goingDown := goingDown s;
      goingRight := goingRight s; isMouseDown := true;
      touchedElement := touchedElement s |}).
Proof.
  intros Hy. unfold onMouseDown, bind, eval; simpl. now rewrite Hy.
Qed.

Lemma onMouseUp_eq :
  onMouseUp e s =
  (Normal tt,
   {| lastY := lastY s; lastX := lastX s; deltaY := 0; deltaX := 0;
      goingDown := None; goingRight := None; isMouseDown := false;
      touchedElement := touchedElement s |}).
Proof. reflexivity. Qed.

Lemma onMouseMove_idle sc :
  isMouseDown sc = false -> onMouseMove sc e s = (Normal tt, s).
Proof. intros H. unfold onMouseMove. now rewrite H. Qed.

Lemma onMouseMove_ok sc x y :
  isMouseDown sc = true ->
  getX e = Normal x -> getY e = Normal y ->
  onMouseMove sc e s =
  (Normal tt,
   {| lastY := lastY s; lastX := lastX s;
      deltaY := y - lastY sc; deltaX := x - lastX sc;
      goingDown := Some (y - lastY sc >? deltaY sc);
      goingRight := Some (x - lastX sc >? deltaX sc);
      isMouseDown := isMouseDown s;
      touchedElement := touchedElement s |}).
Proof.
  intros H Hx Hy. unfold onMouseMove, bind, eval. rewrite H; simpl.
  now rewrite Hy, Hx.
Qed.

Lemma onMouseMove_throw sc :
  getY e = Throw TypeError ->
  snd (onMouseMove sc e s) = s.
Proof.
  intros Hy. unfold onMouseMove, bind, eval.
  destruct (isMouseDown sc); simpl; [now rewrite Hy | reflexivity].
Qed.

End Listeners.

Section Rendering.

Lemma depsChanged_false old new :
  depsChanged old new = false <-> deps old = deps new.
Proof.
  unfold depsChanged, deps. rewrite negb_false_iff, !andb_true_iff.
  rewrite !Z.eqb_eq, Bool.eqb_true_iff. split.
  - intros [[[-> ->] ->] ->]; reflexivity.
  - intros H; injection H; auto.
Qed.

Lemma depsChanged_refl s : depsChanged s s = false.
Proof. now apply depsChanged_false. Qed.

Lemma depsChanged_press old new :
  isMouseDown old = false -> isMouseDown new = true ->
  depsChanged old new = true.
Proof.
  intros H1 H2. unfold depsChanged. now rewrite H1, H2.
Qed.

Lemma render_same h : render h (rendered h) = h.
Proof.
  unfold render. rewrite depsChanged_refl. now destruct h.
Qed.

Lemma render_synced h s : synced h -> synced (render h s).
Proof.
  unfold synced, render; simpl. intros Hs.
  destruct (depsChanged (rendered h) s) eqn:E; [reflexivity |].
  apply depsChanged_false in E. congruence.
Qed.

(** What [window] does with an event, by device class and event class. *)
Lemma dispatchEvent_eq mode h e :
  dispatchEvent mode h e =
  if subscribed mode e
  then render h (snd (listenerOf (scope h) e e (rendered h)))
  else h.
Proof.
  unfold dispatchEvent.
  destruct mode, e as [[] x y tg | [] ts cs tg]; cbn;
    try reflexivity; apply render_same.
Qed.

Lemma dispatchAll_app mode h es es' :
  dispatchAll mode h (es ++ es') =
  dispatchAll mode (dispatchAll mode h es) es'.
Proof. apply fold_left_app. Qed.

End Rendering.

(** * Invariants of the reachable states *)

Section Invariants.

Variable mode : Mode.

(** A property kept by every dispatch holds along every run. *)
Lemma dispatchAll_preserves (P : Hook -> Prop) :
  (forall h e, P h -> P (dispatchEvent mode h e)) ->
  forall es h, P h -> P (dispatchAll mode h es).
Proof.
  intros Hstep es. induction es as [| e es IH]; intros h Hh; simpl.
  - exact Hh.
  - apply IH, Hstep, Hh.
Qed.

Lemma dispatchEvent_synced h e :
  synced h -> synced (dispatchEvent mode h e).
Proof.
  intros Hs. rewrite dispatchEvent_eq.
  destruct (subscribed mode e); [now apply render_synced | exact Hs].
Qed.

Lemma synced_isMouseDown h :
  synced h -> isMouseDown (scope h) = isMouseDown (rendered h).
Proof. unfold synced, deps. intros H; now injection H. Qed.

Lemma synced_lastY h : synced h -> lastY (scope h) = lastY (rendered h).
Proof. unfold synced, deps. intros H; now injection H. Qed.

Lemma synced_deltaY h : synced h -> deltaY (scope h) = deltaY (rendered h).
Proof. unfold synced, deps. intros H; now injection H. Qed.

Lemma synced_deltaX h : synced h -> deltaX (scope h) = deltaX (rendered h).
Proof. unfold synced, deps. intros H; now injection H. Qed.

(** The listeners keep "not pressed implies at rest", provided the move
    listener sees the current press flag. *)
Lemma listenerOf_atRest sc e s :
  isMouseDown sc = isMouseDown s ->
  (isMouseDown s = false -> atRest s) ->
  let s' := snd (listenerOf sc e e s) in
  isMouseDown s' = false -> atRest s'.
Proof.
  intros Hsc Hrest. unfold listenerOf.
  destruct (isPress e).
  - (* onMouseDown: the flag is set before anything can throw *)
    destruct (getX_getY_agree e) as [(x & y & Hx & Hy) | [_ Hy]].
    + rewrite (onMouseDown_ok e s x y Hx Hy); simpl; discriminate.
    + rewrite (onMouseDown_throw e s Hy); simpl; discriminate.
  - destruct (isMove e).
    + destruct (isMouseDown sc) eqn:Hd.
      * destruct (getX_getY_agree e) as [(x & y & Hx & Hy) | [_ Hy]].
        -- rewrite (onMouseMove_ok e s sc x y Hd Hx Hy); simpl.
           intros Hf; rewrite Hf in Hsc; discriminate.
        -- now rewrite (onMouseMove_throw e s sc Hy).
      * now rewrite (onMouseMove_idle e s sc Hd).
    + rewrite onMouseUp_eq; simpl. intros _; repeat split.
Qed.

Lemma dispatchEvent_restInvariant h e :
  restInvariant h -> restInvariant (dispatchEvent mode h e).
Proof.
  intros [Hs Hr]. split; [now apply dispatchEvent_synced |].
  rewrite dispatchEvent_eq. destruct (subscribed mode e); [| exact Hr].
  simpl. apply listenerOf_atRest; [now apply synced_isMouseDown | exact Hr].
Qed.

Lemma mount_restInvariant : restInvariant mount.
Proof. split; [reflexivity | intros _; repeat split]. Qed.

Lemma reachable_restInvariant h : reachable mode h -> restInvariant h.
Proof.
  intros [es ->].
  apply dispatchAll_preserves;
    [apply dispatchEvent_restInvariant | apply mount_restInvariant].
Qed.

Lemma reachable_synced h : reachable mode h -> synced h.
Proof. intros H; apply reachable_restInvariant, H. Qed.

Lemma reachable_step h e :
  reachable mode h -> reachable mode (dispatchEvent mode h e).
Proof.
  intros [es ->]. exists (es ++ [e])%list. now rewrite dispatchAll_app.
Qed.

End Invariants.

(** * Moves *)

Section Moves.

Variable mode : Mode.

(** A subscribed move with coordinates, delivered while pressed. *)
Lemma dispatch_move_pressed h e x y :
  synced h -> isMouseDown (rendered h) = true ->
  isMove e = true -> subscribed mode e = true ->
  getX e = Normal x -> getY e = Normal y ->
  rendered (dispatchEvent mode h e) =
  {| lastY := lastY (rendered h); lastX := lastX (rendered h);
     deltaY := y - lastY (rendered h); deltaX := x - lastX (scope h);
     goingDown := Some (y - lastY (rendered h) >? deltaY (rendered h));
     goingRight := Some (x - lastX (scope h) >? deltaX (rendered h));
     isMouseDown := true;
     touchedElement := touchedElement (rendered h) |}.
Proof.
  intros Hs Hd Hm Hsub Hx Hy.
  rewrite dispatchEvent_eq, Hsub. unfold listenerOf.
  assert (Hp : isPress e = false)
    by (destruct e as [[] ? ? ? | [] ? ? ?]; simpl in *; congruence).
  rewrite Hp, Hm; simpl.
  rewrite (onMouseMove_ok e (rendered h) (scope h) x y); trivial.
  - simpl. rewrite Hd.
    now rewrite (synced_lastY h Hs), (synced_deltaY h Hs),
      (synced_deltaX h Hs).
  - now rewrite (synced_isMouseDown h Hs).
Qed.

(** No move, by any listener scope, writes the origin or the press flag. *)
Lemma onMouseMove_frame sc e s :
  let s' := snd (onMouseMove sc e s) in
  lastX s' = lastX s /\ lastY s' = lastY s /\
  isMouseDown s' = isMouseDown s /\ touchedElement s' = touchedElement s.
Proof.
  destruct (isMouseDown sc) eqn:Hd.
  - destruct (getX_getY_agree e) as [(x & y & Hx & Hy) | [_ Hy]].
    + rewrite (onMouseMove_ok e s sc x y Hd Hx Hy); simpl; auto.
    + rewrite (onMouseMove_throw e s sc Hy); simpl; auto.
  - rewrite (onMouseMove_idle e s sc Hd); simpl; auto.
Qed.

Lemma isMove_listenerOf sc e :
  isMove e = true -> listenerOf sc e = onMouseMove sc.
Proof.
  intros Hm. unfold listenerOf. rewrite Hm.
  now destruct e as [[] ? ? ? | [] ? ? ?].
Qed.

Lemma dispatch_move_pressedAt px py h e :
  isMove e = true -> pressedAt px py h ->
  pressedAt px py (dispatchEvent mode h e).
Proof.
  intros Hm (Hd & Hsd & Hx & Hy & Hsx & Hsy).
  rewrite dispatchEvent_eq.
  destruct (subscribed mode e); [| repeat split; assumption].
  rewrite (isMove_listenerOf _ _ Hm).
  destruct (onMouseMove_frame (scope h) e (rendered h))
    as (Fx & Fy & Fd & _).
  unfold pressedAt, render; simpl.
  destruct (depsChanged _ _); simpl; rewrite ?Fx, ?Fy, ?Fd; auto 10.
Qed.

Lemma dispatchAll_moves_pressedAt px py ms :
  Forall (fun m => isMove m = true) ms ->
  forall h, pressedAt px py h -> pressedAt px py (dispatchAll mode h ms).
Proof.
  induction 1 as [| m ms Hm _ IH]; intros h Hh; simpl; [exact Hh |].
  apply IH, dispatch_move_pressedAt; assumption.
Qed.

(** A subscribed press with coordinates, delivered while not pressed:
    the effect runs again, so the listeners see the new origin. *)
Lemma dispatch_press_idle h p px py :
  isMouseDown (rendered h) = false ->
  isPress p = true -> subscribed mode p = true ->
  getX p = Normal px -> getY p = Normal py ->
  let s' :=
    {| lastY := py; lastX := px;
       deltaY := deltaY (rendered h); deltaX := deltaX (rendered h);
       goingDown := goingDown (rendered h);
       goingRight := goingRight (rendered h);
       isMouseDown := true;
       touchedElement := Some (className (target p)) |} in
  dispatchEvent mode h p = {| rendered := s'; scope := s' |}.
Proof.
  intros Hd Hp Hsub Hx Hy. rewrite dispatchEvent_eq, Hsub.
  unfold listenerOf. rewrite Hp.
  rewrite (onMouseDown_ok p (rendered h) px py Hx Hy); simpl.
  unfold render. now rewrite depsChanged_press.
Qed.

End Moves.

(** * Releases *)

Section Release.

Variable mode : Mode.

Lemma isRelease_listenerOf sc e :
  isRelease e = true -> listenerOf sc e = onMouseUp.
Proof. now destruct e as [[] ? ? ? | [] ? ? ?]. Qed.

Lemma dispatch_release h r :
  isRelease r = true -> subscribed mode r = true ->
  rendered (dispatchEvent mode h r) =
  {| lastY := lastY (rendered h); lastX := lastX (rendered h);
     deltaY := 0; deltaX := 0; goingDown := None; goingRight := None;
     isMouseDown := false;
     touchedElement := touchedElement (rendered h) |}.
Proof.
  intros Hrel Hsub.
  now rewrite dispatchEvent_eq, Hsub, (isRelease_listenerOf _ _ Hrel).
Qed.

Lemma dispatchAll_snoc h es e :
  dispatchAll mode h (es ++ [e]) =
  dispatchEvent mode (dispatchAll mode h es) e.
Proof. now rewrite dispatchAll_app. Qed.

End Release.

(** * What only a press can write *)

Section Frame.

Variable mode : Mode.

Lemma dispatch_nonpress_frame h e :
  isPress e = false ->
  let s' := rendered (dispatchEvent mode h e) in
  touchedElement s' = touchedElement (rendered h) /\
  lastX s' = lastX (rendered h) /\ lastY s' = lastY (rendered h).
Proof.
  intros Hp. rewrite dispatchEvent_eq.
  destruct (subscribed mode e); [| now repeat split].
  unfold listenerOf. rewrite Hp. destruct (isMove e); simpl.
  - destruct (onMouseMove_frame (scope h) e (rendered h))
      as (Fx & Fy & _ & Ft). auto.
  - now repeat split.
Qed.

Lemma dispatchAll_nonpress_frame es :
  Forall (fun e => isPress e = false) es ->
  forall h,
    let s' := rendered (dispatchAll mode h es) in
    touchedElement s' = touchedElement (rendered h) /\
    lastX s' = lastX (rendered h) /\ lastY s' = lastY (rendered h).
Proof.
  induction 1 as [| e es He _ IH]; intros h; simpl; [now repeat split |].
  destruct (IH (dispatchEvent mode h e)) as (Ht & Hx & Hy).
  destruct (dispatch_nonpress_frame h e He) as (Ht' & Hx' & Hy').
  simpl in *. rewrite Ht, Hx, Hy. auto.
Qed.

End Frame.

(** * Modes *)

Section Modes.

Lemma dispatchAll_unsubscribed mode (keep : Event -> bool) :
  (forall h e, keep e = false -> dispatchEvent mode h e = h) ->
  forall es h,
    dispatchAll mode h es = dispatchAll mode h (filter keep es).
Proof.
  intros Hskip es. induction es as [| e es IH]; intros h; simpl.
  - reflexivity.
  - destruct (keep e) eqn:K; simpl.
    + apply IH.
    + rewrite (Hskip h e K). apply IH.
Qed.

Lemma dispatch_mouse_mode_touch h ty ts cs tg :
  dispatchEvent mouse h (TouchEvent ty ts cs tg) = h.
Proof. now rewrite dispatchEvent_eq. Qed.

Lemma dispatch_touch_mode_mouse h ty x y tg :
  dispatchEvent touch h (MouseEvent ty x y tg) = h.
Proof. now rewrite dispatchEvent_eq. Qed.

End Modes.

(** * A press while pressed *)

Section SecondPress.

Variable mode : Mode.

(** The effect runs again after a press-while-pressed only when the
    press changes [lastY]: [lastX] is not a dependency. *)
Lemma dispatch_press_pressed h e x y :
  isMouseDown (rendered h) = true ->
  isPress e = true -> subscribed mode e = true ->
  getX e = Normal x -> getY e = Normal y ->
  let s' :=
    {| lastY := y; lastX := x;
       deltaY := deltaY (rendered h); deltaX := deltaX (rendered h);
       goingDown := goingDown (rendered h);
       goingRight := goingRight (rendered h);
       isMouseDown := true;
       touchedElement := Some (className (target e)) |} in
  dispatchEvent mode h e =
  {| rendered := s';
     scope := if Z.eqb (lastY (rendered h)) y then scope h else s' |}.
Proof.
  intros Hd Hp Hsub Hx Hy. rewrite dispatchEvent_eq, Hsub.
  unfold listenerOf. rewrite Hp.
  rewrite (onMouseDown_ok e (rendered h) x y Hx Hy); simpl.
  unfold render, depsChanged; simpl.
  rewrite Hd, !Z.eqb_refl; simpl.
  now destruct (Z.eqb (lastY (rendered h)) y).
Qed.

End SecondPress.

(** * The properties of the specification *)

(** C1.  A move processed while pressed compares the fresh raw delta with
    the delta stored before the move and only then overwrites the stored
    delta: [goingDown] is [rawDeltaY > deltaY] and [goingRight] is
    [rawDeltaX > deltaX], both against the previous values, and
    [deltaY]/[deltaX] become the raw values.  From a press at (0,0) a move
    to (0,50) gives [deltaY = 50], [goingDown = true], and a further move
    to (0,30) gives [deltaY = 30], [goingDown = false]. *)
Theorem move_trend_compares_then_overwrites :
  (forall mode h e x y,
      reachable mode h ->
      isMouseDown (rendered h) = true ->
      isMove e = true -> subscribed mode e = true ->
      getX e = Normal x -> getY e = Normal y ->
      let rawDeltaY := y - lastY (rendered h) in
      let rawDeltaX := x - lastX (scope h) in
      let s' := rendered (dispatchEvent mode h e) in
      goingDown s' = Some (rawDeltaY >? deltaY (rendered h)) /\
      goingRight s' = Some (rawDeltaX >? deltaX (rendered h)) /\
      deltaY s' = rawDeltaY /\ deltaX s' = rawDeltaX) /\
  (let h1 := dispatchAll both mount
               [mouseAt mousedown 0 0; mouseAt mousemove 0 50] in
   let h2 := dispatchEvent both h1 (mouseAt mousemove 0 30) in
   deltaY (rendered h1) = 50 /\ goingDown (rendered h1) = Some true /\
   deltaY (rendered h2) = 30 /\ goingDown (rendered h2) = Some false) /\
  (let h1 := dispatchAll both mount
               [touchAt touchstart 0 0; touchAt touchmove 0 50] in
   let h2 := dispatchEvent both h1 (touchAt touchmove 0 30) in
   deltaY (rendered h1) = 50 /\ goingDown (rendered h1) = Some true /\
   deltaY (rendered h2) = 30 /\ goingDown (rendered h2) = Some false).
Proof.
  split; [| split; repeat split].
  intros mode h e x y Hr Hd Hm Hsub Hx Hy; cbv zeta.
  rewrite (dispatch_move_pressed mode h e x y); simpl; auto.
  now apply reachable_synced with mode.
Qed.

Lemma move_trend_compares_then_overwrites_witness :
  let h := dispatchAll both mount
             [mouseAt mousedown 0 0; mouseAt mousemove 0 50] in
  let s' := rendered (dispatchEvent both h (mouseAt mousemove 0 30)) in
  goingDown s' = Some (30 - 0 >? 50) /\
  goingRight s' = Some (0 - 0 >? 0) /\
  deltaY s' = 30 - 0 /\ deltaX s' = 0 - 0.
Proof.
  apply (proj1 move_trend_compares_then_overwrites both
           (dispatchAll both mount
              [mouseAt mousedown 0 0; mouseAt mousemove 0 50])
           (mouseAt mousemove 0 30) 0 30);
    try reflexivity.
  exists [mouseAt mousedown 0 0; mouseAt mousemove 0 50]; reflexivity.
Defined.

(** C2.  After a single press (a press delivered while not pressed) every
    move sets [deltaX]/[deltaY] to the current coordinates minus the
    coordinates recorded at the press, whatever moves came before; the
    origin is written by the press listener only, never by a move.  Press
    at (100,100), move to (120,115), move to (110,105) gives
    [deltaX = 10], [deltaY = 5]. *)
Theorem move_delta_relative_to_press_origin :
  (forall mode h p ms e px py x y,
      isMouseDown (rendered h) = false ->
      isPress p = true -> subscribed mode p = true ->
      getX p = Normal px -> getY p = Normal py ->
      Forall (fun m => isMove m = true) ms ->
      isMove e = true -> subscribed mode e = true ->
      getX e = Normal x -> getY e = Normal y ->
      let h' := dispatchEvent mode
                  (dispatchAll mode (dispatchEvent mode h p) ms) e in
      deltaX (rendered h') = x - px /\ deltaY (rendered h') = y - py /\
      lastX (rendered h') = px /\ lastY (rendered h') = py) /\
  (forall sc e s,
      lastX (snd (onMouseMove sc e s)) = lastX s /\
      lastY (snd (onMouseMove sc e s)) = lastY s) /\
  (let h' := dispatchAll both mount
               [mouseAt mousedown 100 100; mouseAt mousemove 120 115;
                mouseAt mousemove 110 105] in
   deltaX (rendered h') = 10 /\ deltaY (rendered h') = 5).
Proof.
  split; [| split; [| split; reflexivity]].
  - intros mode h p ms e px py x y Hd Hp Hsp Hpx Hpy Hms Hm Hsub Hx Hy.
    cbv zeta.
    assert (H1 : pressedAt px py (dispatchEvent mode h p)).
    { rewrite (dispatch_press_idle mode h p px py Hd Hp Hsp Hpx Hpy).
      repeat split. }
    pose proof (dispatchAll_moves_pressedAt mode px py ms Hms _ H1)
      as (Hd2 & Hsd2 & Hx2 & Hy2 & Hsx2 & Hsy2).
    set (h2 := dispatchAll mode (dispatchEvent mode h p) ms) in *.
    rewrite dispatchEvent_eq, Hsub, (isMove_listenerOf _ _ Hm).
    rewrite (onMouseMove_ok e (rendered h2) (scope h2) x y Hsd2 Hx Hy).
    simpl. rewrite Hsx2, Hsy2. auto.
  - intros sc e s.
    destruct (onMouseMove_frame sc e s) as (Fx & Fy & _). auto.
Qed.

Lemma move_delta_relative_to_press_origin_witness :
  let h' := dispatchEvent both
              (dispatchAll both
                 (dispatchEvent both mount (mouseAt mousedown 100 100))
                 [mouseAt mousemove 120 115])
              (mouseAt mousemove 110 105) in
  deltaX (rendered h') = 110 - 100 /\ deltaY (rendered h') = 105 - 100 /\
  lastX (rendered h') = 100 /\ lastY (rendered h') = 100.
Proof.
  apply (proj1 move_delta_relative_to_press_origin both mount
           (mouseAt mousedown 100 100) [mouseAt mousemove 120 115]
           (mouseAt mousemove 110 105) 100 100 110 105);
    try reflexivity.
  repeat constructor.
Defined.

(** C3.  In every state reachable from the mounted hook by any sequence of
    events, [isMouseDown = false] implies [deltaX = 0], [deltaY = 0] and
    both trend flags unset; and a release, after whatever came before it
    (in particular after press, move*, ...), leaves [deltaX = 0],
    [deltaY = 0], [isMouseDown = false] and both trend flags unset. *)
Theorem not_pressed_implies_at_rest :
  (forall mode h,
      reachable mode h ->
      isMouseDown (rendered h) = false ->
      deltaX (rendered h) = 0 /\ deltaY (rendered h) = 0 /\
      goingDown (rendered h) = None /\ goingRight (rendered h) = None) /\
  (forall mode p ms r,
      isPress p = true -> Forall (fun m => isMove m = true) ms ->
      isRelease r = true -> subscribed mode r = true ->
      let s' := rendered (dispatchAll mode mount (p :: ms ++ [r])) in
      deltaX s' = 0 /\ deltaY s' = 0 /\ isMouseDown s' = false /\
      goingDown s' = None /\ goingRight s' = None).
Proof.
  split.
  - intros mode h Hr Hd.
    destruct (reachable_restInvariant mode h Hr) as [_ H]. apply H, Hd.
  - intros mode p ms r _ _ Hrel Hsub; cbv zeta.
    change (p :: ms ++ [r])%list with ((p :: ms) ++ [r])%list.
    rewrite dispatchAll_snoc, (dispatch_release mode _ r Hrel Hsub).
    simpl. repeat split.
Qed.

Lemma not_pressed_implies_at_rest_witness :
  let h := dispatchAll both mount
             [touchAt touchstart 5 5; touchAt touchmove 9 1;
              touchEndAt 9 1] in
  deltaX (rendered h) = 0 /\ deltaY (rendered h) = 0 /\
  goingDown (rendered h) = None /\ goingRight (rendered h) = None.
Proof.
  apply (proj1 not_pressed_implies_at_rest both
           (dispatchAll both mount
              [touchAt touchstart 5 5; touchAt touchmove 9 1;
               touchEndAt 9 1])).
  - exists [touchAt touchstart 5 5; touchAt touchmove 9 1; touchEndAt 9 1].
    reflexivity.
  - reflexivity.
Defined.

(** C4 (as amended).  In mode [both]: a touch-start at (50,50) on the
    element "card" gives the snapshot
    [{deltaX: 0, deltaY: 0, isMouseDown: true, touchedElement: "card",
      goingDown: unset, goingRight: unset}]; a touch-move to (50,0) then
    gives [{deltaX: 0, deltaY: -50, isMouseDown: true,
      touchedElement: "card", goingDown: false, goingRight: false}]
    ([goingDown] is false because -50 > 0 is false); a touch-end then gives
    [{deltaX: 0, deltaY: 0, isMouseDown: false, touchedElement: "card",
      goingDown: unset, goingRight: unset}].  The further contacts, the
    changed-touch lists and the targets of the later events are
    arbitrary. *)
Theorem touch_scenario_snapshots :
  forall more1 cs1 more2 cs2 tg2 ts3 cs3 tg3,
    let h1 := dispatchEvent both mount
                (TouchEvent touchstart
                   ({| clientX := 50; clientY := 50 |} :: more1) cs1 card) in
    let h2 := dispatchEvent both h1
                (TouchEvent touchmove
                   ({| clientX := 50; clientY := 0 |} :: more2) cs2 tg2) in
    let h3 := dispatchEvent both h2 (TouchEvent touchend ts3 cs3 tg3) in
    useMouseDelta h1 =
      {| snap_deltaY := 0; snap_deltaX := 0; snap_isMouseDown := true;
         snap_touchedElement := Some "card";
         snap_goingDown := None; snap_goingRight := None |} /\
    useMouseDelta h2 =
      {| snap_deltaY := -50; snap_deltaX := 0; snap_isMouseDown := true;
         snap_touchedElement := Some "card";
         snap_goingDown := Some false; snap_goingRight := Some false |} /\
    useMouseDelta h3 =
      {| snap_deltaY := 0; snap_deltaX := 0; snap_isMouseDown := false;
         snap_touchedElement := Some "card";
         snap_goingDown := None; snap_goingRight := None |}.
Proof. intros; repeat split. Qed.

(** C4 as stated does not hold: after the touch-move to (50,0) the
    snapshot has [goingDown = false], not [true]. *)
Lemma touch_scenario_goingDown_true_fails :
  ~ (let h1 := dispatchEvent both mount (touchAt touchstart 50 50) in
     let h2 := dispatchEvent both h1 (touchAt touchmove 50 0) in
     let h3 := dispatchEvent both h2 (touchEndAt 50 0) in
     useMouseDelta h1 =
       {| snap_deltaY := 0; snap_deltaX := 0; snap_isMouseDown := true;
          snap_touchedElement := Some "card";
          snap_goingDown := None; snap_goingRight := None |} /\
     useMouseDelta h2 =
       {| snap_deltaY := -50; snap_deltaX := 0; snap_isMouseDown := true;
          snap_touchedElement := Some "card";
          snap_goingDown := Some true; snap_goingRight := Some false |} /\
     useMouseDelta h3 =
       {| snap_deltaY := 0; snap_deltaX := 0; snap_isMouseDown := false;
          snap_touchedElement := Some "card";
          snap_goingDown := None; snap_goingRight := None |}).
Proof.
  intros (_ & H & _). vm_compute in H. discriminate H.
Qed.

(** C5.  A move delivered while [isMouseDown] is false changes nothing:
    every state field, the stored origin included, and the registered
    listeners stay as they were. *)
Theorem move_while_not_pressed_is_noop :
  forall mode h e,
    reachable mode h ->
    isMouseDown (rendered h) = false ->
    isMove e = true ->
    dispatchEvent mode h e = h.
Proof.
  intros mode h e Hr Hd Hm. rewrite dispatchEvent_eq.
  destruct (subscribed mode e); [| reflexivity].
  rewrite (isMove_listenerOf _ _ Hm), onMouseMove_idle.
  - apply render_same.
  - rewrite (synced_isMouseDown h); [exact Hd |].
    now apply reachable_synced with mode.
Qed.

Lemma move_while_not_pressed_is_noop_witness :
  let h := dispatchAll both mount
             [mouseAt mousedown 10 10; mouseAt mousemove 30 5;
              mouseAt mouseup 30 5] in
  dispatchEvent both h (mouseAt mousemove 70 70) = h.
Proof.
  apply (move_while_not_pressed_is_noop both
           (dispatchAll both mount
              [mouseAt mousedown 10 10; mouseAt mousemove 30 5;
               mouseAt mouseup 30 5])
           (mouseAt mousemove 70 70)); try reflexivity.
  exists [mouseAt mousedown 10 10; mouseAt mousemove 30 5;
          mouseAt mouseup 30 5]; reflexivity.
Defined.

(** C6.  A press delivered in a not-pressed state leaves, before any move,
    [deltaX = 0], [deltaY = 0], [isMouseDown = true], [touchedElement] equal
    to the class name of the event's target and both trend flags unset; the
    origin is overwritten with the press coordinates.  The press listener
    itself never writes the deltas or the trend flags. *)
Theorem press_from_rest :
  (forall mode h e x y,
      reachable mode h ->
      isMouseDown (rendered h) = false ->
      isPress e = true -> subscribed mode e = true ->
      getX e = Normal x -> getY e = Normal y ->
      rendered (dispatchEvent mode h e) =
      {| lastY := y; lastX := x; deltaY := 0; deltaX := 0;
         goingDown := None; goingRight := None; isMouseDown := true;
         touchedElement := Some (className (target e)) |}) /\
  (forall e s,
      let s' := snd (onMouseDown e s) in
      deltaX s' = deltaX s /\ deltaY s' = deltaY s /\
      goingDown s' = goingDown s /\ goingRight s' = goingRight s).
Proof.
  split.
  - intros mode h e x y Hr Hd Hp Hsub Hx Hy.
    destruct (reachable_restInvariant mode h Hr) as [_ Hrest].
    destruct (Hrest Hd) as (Dx & Dy & Gd & Gr).
    rewrite (dispatch_press_idle mode h e x y Hd Hp Hsub Hx Hy); simpl.
    now rewrite Dx, Dy, Gd, Gr.
  - intros e s.
    destruct (getX_getY_agree e) as [(x & y & Hx & Hy) | [_ Hy]].
    + rewrite (onMouseDown_ok e s x y Hx Hy); simpl; auto.
    + rewrite (onMouseDown_throw e s Hy); simpl; auto.
Qed.

Lemma press_from_rest_witness :
  let h := dispatchAll touch mount
             [touchAt touchstart 1 2; touchAt touchmove 8 9;
              touchEndAt 8 9] in
  rendered (dispatchEvent touch h (touchAt touchstart 40 60)) =
  {| lastY := 60; lastX := 40; deltaY := 0; deltaX := 0;
     goingDown := None; goingRight := None; isMouseDown := true;
     touchedElement := Some "card" |}.
Proof.
  apply (proj1 press_from_rest touch
           (dispatchAll touch mount
              [touchAt touchstart 1 2; touchAt touchmove 8 9;
               touchEndAt 8 9])
           (touchAt touchstart 40 60) 40 60); try reflexivity.
  exists [touchAt touchstart 1 2; touchAt touchmove 8 9; touchEndAt 8 9].
  reflexivity.
Defined.

(** C7.  A release sets [isMouseDown] to false, [deltaX] and [deltaY] to 0
    and both trend flags to unset, and leaves [touchedElement] and the
    stored origin as they were; they keep those values through every later
    event that is not a press, so [touchedElement] is never cleared by a
    release. *)
Theorem release_resets_and_keeps_touchedElement :
  (forall mode h r,
      isRelease r = true -> subscribed mode r = true ->
      rendered (dispatchEvent mode h r) =
      {| lastY := lastY (rendered h); lastX := lastX (rendered h);
         deltaY := 0; deltaX := 0; goingDown := None; goingRight := None;
         isMouseDown := false;
         touchedElement := touchedElement (rendered h) |}) /\
  (forall mode h es,
      Forall (fun e => isPress e = false) es ->
      let s' := rendered (dispatchAll mode h es) in
      touchedElement s' = touchedElement (rendered h) /\
      lastX s' = lastX (rendered h) /\ lastY s' = lastY (rendered h)).
Proof.
  split.
  - intros mode h r. apply dispatch_release.
  - intros mode h es Hes. now apply dispatchAll_nonpress_frame.
Qed.

Lemma release_resets_and_keeps_touchedElement_witness :
  let h := dispatchAll both mount
             [mouseAt mousedown 3 4; mouseAt mousemove 13 24] in
  rendered (dispatchEvent both h (mouseAt mouseup 13 24)) =
  {| lastY := 4; lastX := 3; deltaY := 0; deltaX := 0;
     goingDown := None; goingRight := None; isMouseDown := false;
     touchedElement := Some "card" |}.
Proof.
  apply (proj1 release_resets_and_keeps_touchedElement both
           (dispatchAll both mount
              [mouseAt mousedown 3 4; mouseAt mousemove 13 24])
           (mouseAt mouseup 13 24)); reflexivity.
Defined.

(** C8.  In mode [mouse] no touch event alters the state, so a run is the
    run of its mouse events; in mode [touch] no mouse event alters the
    state, so a run is the run of its touch events; in mode [both] the
    mouse and the touch event types are bound to the same three listeners,
    every event of either kind runs the listener of its class on the one
    shared state, and the two kinds can be mixed within a gesture; [both]
    is the default mode. *)
Theorem mode_selects_device_class :
  defaultMode = both /\
  (forall h ty ts cs tg, dispatchEvent mouse h (TouchEvent ty ts cs tg) = h) /\
  (forall h ty x y tg, dispatchEvent touch h (MouseEvent ty x y tg) = h) /\
  (forall h es,
      dispatchAll mouse h es = dispatchAll mouse h (filter isMouseClass es)) /\
  (forall h es,
      dispatchAll touch h es = dispatchAll touch h (filter isTouchClass es)) /\
  (forall sc,
      listenersFor "mousedown" (addEventListeners both sc) = [onMouseDown] /\
      listenersFor "touchstart" (addEventListeners both sc) = [onMouseDown] /\
      listenersFor "mousemove" (addEventListeners both sc)
        = [onMouseMove sc] /\
      listenersFor "touchmove" (addEventListeners both sc)
        = [onMouseMove sc] /\
      listenersFor "mouseup" (addEventListeners both sc) = [onMouseUp] /\
      listenersFor "touchend" (addEventListeners both sc) = [onMouseUp]) /\
  (forall h e,
      dispatchEvent both h e =
      render h (snd (listenerOf (scope h) e e (rendered h)))) /\
  (let h := dispatchAll both mount
              [touchAt touchstart 0 0; mouseAt mousemove 5 7] in
   isMouseDown (rendered h) = true /\
   deltaX (rendered h) = 5 /\ deltaY (rendered h) = 7) /\
  (let h := dispatchAll both mount
              [mouseAt mousedown 0 0; touchAt touchmove 5 7] in
   isMouseDown (rendered h) = true /\
   deltaX (rendered h) = 5 /\ deltaY (rendered h) = 7).
Proof.
  split; [reflexivity |].
  split; [exact dispatch_mouse_mode_touch |].
  split; [exact dispatch_touch_mode_mouse |].
  split.
  { intros h es. apply dispatchAll_unsubscribed.
    intros h' [ty x y tg | ty ts cs tg] K; [discriminate K |].
    apply dispatch_mouse_mode_touch. }
  split.
  { intros h es. apply dispatchAll_unsubscribed.
    intros h' [ty x y tg | ty ts cs tg] K; [| discriminate K].
    apply dispatch_touch_mode_mouse. }
  split; [intros sc; repeat split |].
  split; [intros h e; rewrite dispatchEvent_eq; now destruct e |].
  split; repeat split.
Qed.

(** C9.  Coordinate extraction: for a touch event both extractors read the
    first entry of [touches], and the first entry of [changedTouches] when
    [touches] is empty; when at least one of the two lists is non-empty
    they return a number and do not throw.  For a mouse event they return
    the event's [x] and [y]. *)
Theorem coordinate_extraction_total :
  (forall ty t ts cs tg,
      getX (TouchEvent ty (t :: ts) cs tg) = Normal (clientX t) /\
      getY (TouchEvent ty (t :: ts) cs tg) = Normal (clientY t)) /\
  (forall ty c cs tg,
      getX (TouchEvent ty [] (c :: cs) tg) = Normal (clientX c) /\
      getY (TouchEvent ty [] (c :: cs) tg) = Normal (clientY c)) /\
  (forall ty ts cs tg,
      ts <> [] \/ cs <> [] ->
      exists x y,
        getX (TouchEvent ty ts cs tg) = Normal x /\
        getY (TouchEvent ty ts cs tg) = Normal y) /\
  (forall ty x y tg,
      getX (MouseEvent ty x y tg) = Normal x /\
      getY (MouseEvent ty x y tg) = Normal y).
Proof.
  repeat apply conj.
  - intros; now rewrite getX_touch, getY_touch.
  - intros; now rewrite getX_touch, getY_touch.
  - intros ty ts cs tg H. rewrite getX_touch, getY_touch.
    destruct ts as [| t ts]; [destruct cs as [| c cs] |]; simpl; eauto.
    destruct H as [H | H]; now elim H.
  - intros; now rewrite getX_mouse, getY_mouse.
Qed.

Lemma coordinate_extraction_total_witness :
  exists x y,
    getX (touchEndAt 9 1) = Normal x /\ getY (touchEndAt 9 1) = Normal y.
Proof.
  apply (proj1 (proj2 (proj2 coordinate_extraction_total)) touchend []
           [{| clientX := 9; clientY := 1 |}] card).
  right; discriminate.
Defined.

(** When both lists are empty the extractors do throw. *)
Lemma extraction_without_touch_throws ty tg :
  getX (TouchEvent ty [] [] tg) = Throw TypeError /\
  getY (TouchEvent ty [] [] tg) = Throw TypeError.
Proof. now rewrite getX_touch, getY_touch. Qed.

(** C10.  A press delivered while already pressed overwrites the origin and
    [touchedElement], keeps [isMouseDown] true and leaves [deltaX],
    [deltaY], [goingDown], [goingRight] at their values before the press.
    The registered listeners are replaced only if the press changed
    [lastY]; otherwise the move listener still holds the old [lastX].  After
    mousedown (100,100), mousedown (200,100), mousemove (210,100) the hook
    reports [deltaX = 110], computed against the old origin 100, although
    the stored origin is 200. *)
Theorem second_press_keeps_deltas_stale_lastX :
  (forall mode h e x y,
      isMouseDown (rendered h) = true ->
      isPress e = true -> subscribed mode e = true ->
      getX e = Normal x -> getY e = Normal y ->
      let h' := dispatchEvent mode h e in
      rendered h' =
        {| lastY := y; lastX := x;
           deltaY := deltaY (rendered h); deltaX := deltaX (rendered h);
           goingDown := goingDown (rendered h);
           goingRight := goingRight (rendered h);
           isMouseDown := true;
           touchedElement := Some (className (target e)) |} /\
      scope h' =
        if Z.eqb (lastY (rendered h)) y then scope h else rendered h') /\
  (let h := dispatchAll both mount
              [mouseAt mousedown 100 100; mouseAt mousedown 200 100] in
   let h' := dispatchEvent both h (mouseAt mousemove 210 100) in
   lastX (rendered h) = 200 /\ lastX (scope h) = 100 /\
   deltaX (rendered h') = 110 /\ lastX (rendered h') = 200).
Proof.
  split; [| repeat split].
  intros mode h e x y Hd Hp Hsub Hx Hy; cbv zeta.
  rewrite (dispatch_press_pressed mode h e x y Hd Hp Hsub Hx Hy).
  split; reflexivity.
Qed.

Lemma second_press_keeps_deltas_stale_lastX_witness :
  let h := dispatchAll both mount
             [mouseAt mousedown 100 100; mouseAt mousemove 150 120] in
  let h' := dispatchEvent both h (mouseAt mousedown 200 100) in
  rendered h' =
    {| lastY := 100; lastX := 200; deltaY := 20; deltaX := 50;
       goingDown := Some true; goingRight := Some true;
       isMouseDown := true; touchedElement := Some "card" |} /\
  scope h' = if Z.eqb 100 100 then scope h else rendered h'.
Proof.
  apply (proj1 second_press_keeps_deltas_stale_lastX both
           (dispatchAll both mount
              [mouseAt mousedown 100 100; mouseAt mousemove 150 120])
           (mouseAt mousedown 200 100) 200 100); reflexivity.
Defined.

(** * Further properties of the hook *)

Section Idle.

Variable mode : Mode.

Lemma event_class e :
  isPress e = true \/ isMove e = true \/ isRelease e = true.
Proof. destruct e as [[] ? ? ? | [] ? ? ?]; simpl; auto. Qed.

Lemma isPress_listenerOf sc e :
  isPress e = true -> listenerOf sc e = onMouseDown.
Proof. intros Hp. unfold listenerOf. now rewrite Hp. Qed.

Lemma dispatch_move_idle h e :
  synced h -> isMouseDown (rendered h) = false -> isMove e = true ->
  dispatchEvent mode h e = h.
Proof.
  intros Hs Hd Hm. rewrite dispatchEvent_eq.
  destruct (subscribed mode e); [| reflexivity].
  rewrite (isMove_listenerOf _ _ Hm), onMouseMove_idle.
  - apply render_same.
  - now rewrite (synced_isMouseDown h Hs).
Qed.

Lemma onMouseUp_atRest r s :
  isMouseDown s = false -> atRest s -> snd (onMouseUp r s) = s.
Proof.
  intros Hd (Dx & Dy & Gd & Gr). rewrite onMouseUp_eq; simpl.
  destruct s; simpl in *; now subst.
Qed.

Lemma dispatch_release_idle h r :
  restInvariant h -> isMouseDown (rendered h) = false ->
  isRelease r = true -> dispatchEvent mode h r = h.
Proof.
  intros [_ Hrest] Hd Hrel. rewrite dispatchEvent_eq.
  destruct (subscribed mode r); [| reflexivity].
  rewrite (isRelease_listenerOf _ _ Hrel), onMouseUp_atRest; auto.
  apply render_same.
Qed.

End Idle.

(** X1.  A release delivered while not pressed changes nothing: the state
    and the registered listeners stay as they were. *)
Theorem release_while_not_pressed_is_noop :
  forall mode h r,
    reachable mode h ->
    isMouseDown (rendered h) = false ->
    isRelease r = true ->
    dispatchEvent mode h r = h.
Proof.
  intros mode h r Hr Hd Hrel.
  apply dispatch_release_idle; auto.
  exact (reachable_restInvariant mode h Hr).
Qed.

Lemma release_while_not_pressed_is_noop_witness :
  let h := dispatchAll both mount
             [mouseAt mousedown 10 10; mouseAt mousemove 30 5;
              mouseAt mouseup 30 5] in
  dispatchEvent both h (touchEndAt 30 5) = h.
Proof.
  apply (release_while_not_pressed_is_noop both
           (dispatchAll both mount
              [mouseAt mousedown 10 10; mouseAt mousemove 30 5;
               mouseAt mouseup 30 5])
           (touchEndAt 30 5)); try reflexivity.
  exists [mouseAt mousedown 10 10; mouseAt mousemove 30 5;
          mouseAt mouseup 30 5]; reflexivity.
Defined.

(** X2.  Until the first press nothing happens: a run of moves and releases
    from the mounted hook leaves it exactly as mounted. *)
Theorem no_press_no_change :
  forall mode es,
    Forall (fun e => isPress e = false) es ->
    dispatchAll mode mount es = mount.
Proof.
  intros mode es H. induction H as [| e es He _ IH]; simpl; [reflexivity |].
  assert (Hstep : dispatchEvent mode mount e = mount).
  { destruct (event_class e) as [Hp | [Hm | Hrel]].
    - congruence.
    - apply dispatch_move_idle; [reflexivity | reflexivity | exact Hm].
    - apply dispatch_release_idle;
        [apply mount_restInvariant | reflexivity | exact Hrel]. }
  now rewrite Hstep.
Qed.

Lemma no_press_no_change_witness :
  dispatchAll both mount
    [mouseAt mousemove 4 4; touchEndAt 1 1; touchAt touchmove 7 9;
     mouseAt mouseup 0 0] = mount.
Proof.
  apply (no_press_no_change both
           [mouseAt mousemove 4 4; touchEndAt 1 1; touchAt touchmove 7 9;
            mouseAt mouseup 0 0]).
  repeat constructor.
Defined.

(** X3.  A touch-start that carries no touch point at all makes the press
    listener throw after it has set [isMouseDown]: the hook is left pressed,
    with the origin, [touchedElement], the deltas and the trend flags as
    they were. *)
Theorem press_without_touch_point :
  forall mode h tg,
    isMobile mode = true ->
    fst (onMouseDown (TouchEvent touchstart [] [] tg) (rendered h))
      = Throw TypeError /\
    rendered (dispatchEvent mode h (TouchEvent touchstart [] [] tg)) =
    {| lastY := lastY (rendered h); lastX := lastX (rendered h);
       deltaY := deltaY (rendered h); deltaX := deltaX (rendered h);
       goingDown := goingDown (rendered h);
       goingRight := goingRight (rendered h);
       isMouseDown := true;
       touchedElement := touchedElement (rendered h) |}.
Proof.
  intros mode h tg Hmob. split; [reflexivity |].
  rewrite dispatchEvent_eq. unfold subscribed; simpl. rewrite Hmob.
  reflexivity.
Qed.

Lemma press_without_touch_point_witness :
  fst (onMouseDown (TouchEvent touchstart [] [] card) (rendered mount))
    = Throw TypeError /\
  rendered (dispatchEvent touch mount (TouchEvent touchstart [] [] card)) =
  {| lastY := 0; lastX := 0; deltaY := 0; deltaX := 0;
     goingDown := None; goingRight := None;
     isMouseDown := true; touchedElement := None |}.
Proof.
  apply (press_without_touch_point touch mount card). reflexivity.
Defined.

(** X4.  A touch-move that carries no touch point changes nothing, pressed
    or not: the move listener throws before it calls any setter, or does
    not run at all. *)
Theorem move_without_touch_point_is_noop :
  forall mode h tg,
    dispatchEvent mode h (TouchEvent touchmove [] [] tg) = h.
Proof.
  intros mode h tg. rewrite dispatchEvent_eq.
  destruct (subscribed mode _); [| reflexivity].
  rewrite isMove_listenerOf by reflexivity.
  rewrite onMouseMove_throw by reflexivity.
  apply render_same.
Qed.

Section Gestures.

Variable mode : Mode.

Lemma gtb_irrefl d : (d >? d) = false.
Proof. rewrite Z.gtb_ltb. apply Z.ltb_irrefl. Qed.

Lemma gtb_sub_0 a b : (a - b >? 0) = (a >? b).
Proof.
  rewrite !Z.gtb_ltb.
  destruct (Z.ltb_spec 0 (a - b)), (Z.ltb_spec b a); trivial; lia.
Qed.

(** After a move the listeners hold the origin they held before, or the
    stored one. *)
Lemma dispatch_move_scope_lastX h e :
  isMove e = true ->
  lastX (scope h) = lastX (rendered h) ->
  lastX (scope (dispatchEvent mode h e)) = lastX (rendered h).
Proof.
  intros Hm Hfresh. rewrite dispatchEvent_eq.
  destruct (subscribed mode e); [| exact Hfresh].
  rewrite (isMove_listenerOf _ _ Hm). unfold render; simpl.
  destruct (depsChanged _ _); [| exact Hfresh].
  now destruct (onMouseMove_frame (scope h) e (rendered h)) as (Fx & _).
Qed.

Lemma onMouseDown_pressed e s : isMouseDown (snd (onMouseDown e s)) = true.
Proof.
  destruct (getX_getY_agree e) as [(x & y & Hx & Hy) | [_ Hy]].
  - now rewrite (onMouseDown_ok e s x y Hx Hy).
  - now rewrite (onMouseDown_throw e s Hy).
Qed.

Lemma dispatchEvent_fresh h e :
  restInvariant h ->
  (isMouseDown (rendered h) = false -> scope h = rendered h) ->
  isMouseDown (rendered (dispatchEvent mode h e)) = false ->
  scope (dispatchEvent mode h e) = rendered (dispatchEvent mode h e).
Proof.
  intros Hinv Hfresh.
  destruct (isMouseDown (rendered h)) eqn:Hd.
  - (* pressed before: only a subscribed release ends it *)
    rewrite dispatchEvent_eq.
    destruct (subscribed mode e); [| simpl; congruence].
    destruct (event_class e) as [Hp | [Hm | Hrel]].
    + rewrite (isPress_listenerOf _ _ Hp); simpl.
      now rewrite onMouseDown_pressed.
    + rewrite (isMove_listenerOf _ _ Hm); simpl.
      destruct (onMouseMove_frame (scope h) e (rendered h))
        as (_ & _ & Fd & _).
      rewrite Fd, Hd. discriminate.
    + rewrite (isRelease_listenerOf _ _ Hrel), onMouseUp_eq; simpl.
      intros _. unfold depsChanged; simpl. now rewrite Hd.
  - (* not pressed before: a press presses, the rest changes nothing *)
    destruct (event_class e) as [Hp | [Hm | Hrel]].
    + rewrite dispatchEvent_eq.
      destruct (subscribed mode e); [| intros _; now apply Hfresh].
      rewrite (isPress_listenerOf _ _ Hp); simpl.
      now rewrite onMouseDown_pressed.
    + rewrite (dispatch_move_idle mode h e (proj1 Hinv) Hd Hm).
      intros _; now apply Hfresh.
    + rewrite (dispatch_release_idle mode h e Hinv Hd Hrel).
      intros _; now apply Hfresh.
Qed.

Lemma dispatchEvent_flags_together h e :
  (goingDown (rendered h) = None <-> goingRight (rendered h) = None) ->
  let s' := rendered (dispatchEvent mode h e) in
  goingDown s' = None <-> goingRight s' = None.
Proof.
  intros H. rewrite dispatchEvent_eq.
  destruct (subscribed mode e); [| exact H]. simpl.
  destruct (event_class e) as [Hp | [Hm | Hrel]].
  - rewrite (isPress_listenerOf _ _ Hp).
    destruct (getX_getY_agree e) as [(x & y & Hx & Hy) | [_ Hy]].
    + now rewrite (onMouseDown_ok e _ x y Hx Hy).
    + now rewrite (onMouseDown_throw e _ Hy).
  - rewrite (isMove_listenerOf _ _ Hm).
    destruct (isMouseDown (scope h)) eqn:Hd.
    + destruct (getX_getY_agree e) as [(x & y & Hx & Hy) | [_ Hy]].
      * rewrite (onMouseMove_ok e _ (scope h) x y Hd Hx Hy); simpl.
        split; discriminate.
      * now rewrite (onMouseMove_throw e _ (scope h) Hy).
    + now rewrite (onMouseMove_idle e _ (scope h) Hd).
  - rewrite (isRelease_listenerOf _ _ Hrel), onMouseUp_eq; simpl.
    split; reflexivity.
Qed.

End Gestures.

(** X5.  A move to the point of the previous move reports both trend flags
    as false and the same deltas: the comparison with the stored delta is
    strict, so a pointer that rests counts as neither going down nor going
    right.  (The listeners must hold the stored origin X, as they do after
    a single press.) *)
Theorem repeated_move_clears_trend :
  forall mode h e x y,
    reachable mode h ->
    isMouseDown (rendered h) = true ->
    lastX (scope h) = lastX (rendered h) ->
    isMove e = true -> subscribed mode e = true ->
    getX e = Normal x -> getY e = Normal y ->
    let h1 := dispatchEvent mode h e in
    let h2 := dispatchEvent mode h1 e in
    deltaX (rendered h2) = deltaX (rendered h1) /\
    deltaY (rendered h2) = deltaY (rendered h1) /\
    goingDown (rendered h2) = Some false /\
    goingRight (rendered h2) = Some false.
Proof.
  intros mode h e x y Hr Hd Hfresh Hm Hsub Hx Hy; cbv zeta.
  pose proof (reachable_synced mode h Hr) as Hs.
  pose proof (dispatch_move_pressed mode h e x y Hs Hd Hm Hsub Hx Hy) as E1.
  pose proof (dispatch_move_scope_lastX mode h e Hm Hfresh) as Hsx.
  set (h1 := dispatchEvent mode h e) in *.
  assert (Hs1 : synced h1) by now apply dispatchEvent_synced.
  assert (Hd1 : isMouseDown (rendered h1) = true) by now rewrite E1.
  rewrite (dispatch_move_pressed mode h1 e x y Hs1 Hd1 Hm Hsub Hx Hy).
  rewrite Hsx, E1; simpl. rewrite Hfresh, !gtb_irrefl. auto.
Qed.

Lemma repeated_move_clears_trend_witness :
  let h := dispatchEvent both mount (mouseAt mousedown 10 10) in
  let h1 := dispatchEvent both h (mouseAt mousemove 40 90) in
  let h2 := dispatchEvent both h1 (mouseAt mousemove 40 90) in
  deltaX (rendered h2) = deltaX (rendered h1) /\
  deltaY (rendered h2) = deltaY (rendered h1) /\
  goingDown (rendered h2) = Some false /\
  goingRight (rendered h2) = Some false.
Proof.
  apply (repeated_move_clears_trend both
           (dispatchEvent both mount (mouseAt mousedown 10 10))
           (mouseAt mousemove 40 90) 40 90); try reflexivity.
  exists [mouseAt mousedown 10 10]; reflexivity.
Defined.

(** X6.  The first move of a gesture that starts from rest: the whole state
    is determined by the press and the move; the deltas are the offsets
    from the press point and the trend flags say whether the pointer is
    strictly below and strictly to the right of the press point. *)
Theorem first_move_after_press :
  forall mode h p e px py x y,
    reachable mode h ->
    isMouseDown (rendered h) = false ->
    isPress p = true -> subscribed mode p = true ->
    getX p = Normal px -> getY p = Normal py ->
    isMove e = true -> subscribed mode e = true ->
    getX e = Normal x -> getY e = Normal y ->
    rendered (dispatchEvent mode (dispatchEvent mode h p) e) =
    {| lastY := py; lastX := px; deltaY := y - py; deltaX := x - px;
       goingDown := Some (y >? py); goingRight := Some (x >? px);
       isMouseDown := true;
       touchedElement := Some (className (target p)) |}.
Proof.
  intros mode h p e px py x y Hr Hd Hp Hsp Hpx Hpy Hm Hsub Hx Hy.
  destruct (reachable_restInvariant mode h Hr) as [_ Hrest].
  destruct (Hrest Hd) as (Dx & Dy & _ & _).
  rewrite (dispatch_press_idle mode h p px py Hd Hp Hsp Hpx Hpy).
  rewrite (dispatch_move_pressed mode _ e x y);
    [| reflexivity | reflexivity | assumption ..].
  simpl. now rewrite Dx, Dy, !gtb_sub_0.
Qed.

Lemma first_move_after_press_witness :
  rendered (dispatchEvent both
              (dispatchEvent both mount (touchAt touchstart 50 50))
              (touchAt touchmove 70 20)) =
  {| lastY := 50; lastX := 50; deltaY := 20 - 50; deltaX := 70 - 50;
     goingDown := Some (20 >? 50); goingRight := Some (70 >? 50);
     isMouseDown := true; touchedElement := Some "card" |}.
Proof.
  apply (first_move_after_press both mount (touchAt touchstart 50 50)
           (touchAt touchmove 70 20) 50 50 70 20); try reflexivity.
  exists []; reflexivity.
Defined.

(** X7.  In every reachable state the two trend flags are set together or
    unset together. *)
Theorem trend_flags_set_together :
  forall mode h,
    reachable mode h ->
    (goingDown (rendered h) = None <-> goingRight (rendered h) = None).
Proof.
  intros mode h [es ->].
  apply (dispatchAll_preserves mode
           (fun h => goingDown (rendered h) = None <->
                     goingRight (rendered h) = None)).
  - intros h e. apply dispatchEvent_flags_together.
  - split; reflexivity.
Qed.

Lemma trend_flags_set_together_witness :
  let h := dispatchAll both mount
             [mouseAt mousedown 0 0; mouseAt mousemove 3 (-4)] in
  goingDown (rendered h) = None <-> goingRight (rendered h) = None.
Proof.
  apply (trend_flags_set_together both
           (dispatchAll both mount
              [mouseAt mousedown 0 0; mouseAt mousemove 3 (-4)])).
  exists [mouseAt mousedown 0 0; mouseAt mousemove 3 (-4)]; reflexivity.
Defined.

(** X8.  Whenever the pointer is up, the registered listeners close over
    exactly the rendered values: a stale origin can only be held while
    pressed. *)
Theorem listeners_fresh_when_not_pressed :
  forall mode h,
    reachable mode h ->
    isMouseDown (rendered h) = false ->
    scope h = rendered h.
Proof.
  intros mode h [es ->].
  apply (dispatchAll_preserves mode
           (fun h => restInvariant h /\
                     (isMouseDown (rendered h) = false ->
                      scope h = rendered h))).
  - intros h e [Hinv Hfresh]. split.
    + now apply dispatchEvent_restInvariant.
    + now apply dispatchEvent_fresh.
  - split; [apply mount_restInvariant | reflexivity].
Qed.

Lemma listeners_fresh_when_not_pressed_witness :
  let h := dispatchAll both mount
             [mouseAt mousedown 100 100; mouseAt mousedown 200 100;
              mouseAt mousemove 210 100; mouseAt mouseup 210 100] in
  scope h = rendered h.
Proof.
  apply (listeners_fresh_when_not_pressed both
           (dispatchAll both mount
              [mouseAt mousedown 100 100; mouseAt mousedown 200 100;
               mouseAt mousemove 210 100; mouseAt mouseup 210 100]));
    [| reflexivity].
  exists [mouseAt mousedown 100 100; mouseAt mousedown 200 100;
          mouseAt mousemove 210 100; mouseAt mouseup 210 100].
  reflexivity.
Defined.

(** * Devices *)

Section Devices.

Lemma dispatch_both_mouse h e :
  isMouseClass e = true -> dispatchEvent both h e = dispatchEvent mouse h e.
Proof.
  intros H. rewrite !dispatchEvent_eq. unfold subscribed. now rewrite H.
Qed.

Lemma dispatch_both_touch h e :
  isTouchClass e = true -> dispatchEvent both h e = dispatchEvent touch h e.
Proof.
  unfold isTouchClass. intros H. apply negb_true_iff in H.
  rewrite !dispatchEvent_eq. unfold subscribed. now rewrite H.
Qed.

Lemma dispatchAll_ext m1 m2 (f : Event -> Event) (P : Event -> Prop) :
  (forall h e, P e -> dispatchEvent m1 h e = dispatchEvent m2 h (f e)) ->
  forall es, Forall P es ->
  forall h, dispatchAll m1 h es = dispatchAll m2 h (map f es).
Proof.
  intros Hstep es H. induction H as [| e es He _ IH]; intros h; simpl.
  - reflexivity.
  - rewrite (Hstep h e He). apply IH.
Qed.

Lemma dispatch_mouse_as_touch h e :
  isMouseClass e = true ->
  dispatchEvent mouse h e = dispatchEvent touch h (toTouchEvent e).
Proof.
  destruct e as [[] x y tg | ty ts cs tg]; intros H;
    [reflexivity .. | discriminate H].
Qed.

End Devices.

(** X9.  In mode [both] a run of mouse events alone goes exactly as in mode
    [mouse], and a run of touch events alone exactly as in mode [touch]. *)
Theorem both_mode_agrees_with_single_device :
  (forall h es,
      Forall (fun e => isMouseClass e = true) es ->
      dispatchAll both h es = dispatchAll mouse h es) /\
  (forall h es,
      Forall (fun e => isTouchClass e = true) es ->
      dispatchAll both h es = dispatchAll touch h es).
Proof.
  split; intros h es H.
  - rewrite <- (map_id es) at 2.
    apply (dispatchAll_ext both mouse (fun e => e)
             (fun e => isMouseClass e = true)); [| exact H].
    intros; now apply dispatch_both_mouse.
  - rewrite <- (map_id es) at 2.
    apply (dispatchAll_ext both touch (fun e => e)
             (fun e => isTouchClass e = true)); [| exact H].
    intros; now apply dispatch_both_touch.
Qed.

Lemma both_mode_agrees_with_single_device_witness :
  dispatchAll both mount
    [mouseAt mousedown 1 2; mouseAt mousemove 5 9; mouseAt mouseup 5 9] =
  dispatchAll mouse mount
    [mouseAt mousedown 1 2; mouseAt mousemove 5 9; mouseAt mouseup 5 9].
Proof.
  apply (proj1 both_mode_agrees_with_single_device mount
           [mouseAt mousedown 1 2; mouseAt mousemove 5 9;
            mouseAt mouseup 5 9]).
  repeat constructor.
Defined.

(** X10.  The listeners do not depend on the device: a run of mouse events
    in mode [mouse] leaves the hook exactly as the run of the touch events
    that report the same classes, points and targets does in mode
    [touch]. *)
Theorem mouse_run_equals_touch_run :
  forall h es,
    Forall (fun e => isMouseClass e = true) es ->
    dispatchAll mouse h es = dispatchAll touch h (map toTouchEvent es).
Proof.
  intros h es H.
  apply (dispatchAll_ext mouse touch toTouchEvent
           (fun e => isMouseClass e = true)); [| exact H].
  intros; now apply dispatch_mouse_as_touch.
Qed.

Lemma mouse_run_equals_touch_run_witness :
  dispatchAll mouse mount
    [mouseAt mousedown 1 2; mouseAt mousemove 5 9; mouseAt mouseup 5 9] =
  dispatchAll touch mount
    (map toTouchEvent
       [mouseAt mousedown 1 2; mouseAt mousemove 5 9; mouseAt mouseup 5 9]).
Proof.
  apply (mouse_run_equals_touch_run mount
           [mouseAt mousedown 1 2; mouseAt mousemove 5 9;
            mouseAt mouseup 5 9]).
  repeat constructor.
Defined.

(** * The registry of [window] *)

Section Window.

Variable mode : Mode.

Local Open Scope list_scope.

Lemma foreign_not_registered ty run k sc w :
  noHookCallback w = true ->
  existsb (registeredAs ty (HookCallback run k sc)) w = false.
Proof.
  induction w as [| [ty' cb] w IH]; simpl; [reflexivity |].
  destruct cb; [discriminate |]. intros H.
  unfold registeredAs at 1; simpl. rewrite andb_false_r. auto.
Qed.

Lemma add_after_foreign ty run k sc w l :
  noHookCallback w = true ->
  addEventListener ty (HookCallback run k sc) (w ++ l) =
  (w ++ addEventListener ty (HookCallback run k sc) l)%list.
Proof.
  intros H. unfold addEventListener.
  rewrite existsb_app, (foreign_not_registered ty run k sc w H); simpl.
  destruct (existsb _ l); [reflexivity | now rewrite app_assoc].
Qed.

Lemma remove_after_foreign ty run k sc w l :
  noHookCallback w = true ->
  removeEventListener ty (HookCallback run k sc) (w ++ l) =
  (w ++ removeEventListener ty (HookCallback run k sc) l)%list.
Proof.
  induction w as [| [ty' cb] w IH]; simpl; [reflexivity |].
  destruct cb; [discriminate |]. intros H.
  unfold registeredAs at 1; simpl. rewrite andb_false_r.
  now rewrite IH.
Qed.

Lemma effect_after_foreign run sc w l :
  noHookCallback w = true ->
  effect mode run sc (w ++ l) = (w ++ effect mode run sc l)%list.
Proof.
  intros H. unfold effect.
  destruct (isDesktop mode), (isMobile mode);
    now rewrite ?add_after_foreign.
Qed.

Lemma cleanup_after_foreign run sc w l :
  noHookCallback w = true ->
  cleanup mode run sc (w ++ l) = (w ++ cleanup mode run sc l)%list.
Proof.
  intros H. unfold cleanup.
  destruct (isDesktop mode), (isMobile mode);
    now rewrite ?remove_after_foreign.
Qed.

Lemma effect_nil run sc : effect mode run sc [] = hookListeners mode run sc.
Proof. destruct mode; reflexivity. Qed.

Lemma registeredAs_same ty run k sc :
  registeredAs ty (HookCallback run k sc) (ty, HookCallback run k sc) = true.
Proof.
  unfold registeredAs; simpl.
  rewrite String.eqb_refl, Nat.eqb_refl. now destruct k.
Qed.

Lemma cleanup_hookListeners run sc :
  cleanup mode run sc (hookListeners mode run sc) = [].
Proof.
  destruct mode; unfold cleanup, hookListeners; simpl;
    repeat (rewrite registeredAs_same; simpl); reflexivity.
Qed.

Lemma cleanup_nil run sc : cleanup mode run sc [] = [].
Proof. destruct mode; reflexivity. Qed.

(** The closures of one run, called for an event type, are the listeners
    of [addEventListeners]. *)
Lemma hookListeners_called ty run sc :
  map (fun entry => callbackListener (snd entry))
      (filter (fun entry => String.eqb (fst entry) ty)
              (hookListeners mode run sc)) =
  listenersFor ty (addEventListeners mode sc).
Proof.
  destruct mode; unfold hookListeners, listenersFor, addEventListeners;
    cbn [isDesktop isMobile app filter fst snd];
    repeat match goal with
           | |- context [String.eqb ?a ty] => destruct (String.eqb a ty)
           end; reflexivity.
Qed.

Lemma callListeners_app ls1 ls2 e s :
  callListeners (ls1 ++ ls2) e s = callListeners ls2 e (callListeners ls1 e s).
Proof. apply fold_left_app. Qed.

(** Listeners of other code do not touch the state of the hook. *)
Lemma foreign_called ty w e s :
  noHookCallback w = true ->
  callListeners
    (map (fun entry => callbackListener (snd entry))
         (filter (fun entry => String.eqb (fst entry) ty) w)) e s = s.
Proof.
  induction w as [| [ty' cb] w IH]; simpl; [reflexivity |].
  destruct cb; [discriminate |]. intros H.
  destruct (String.eqb ty' ty); simpl; auto.
Qed.

Lemma window_called ty w run sc e s :
  noHookCallback w = true ->
  callListeners
    (map (fun entry => callbackListener (snd entry))
         (filter (fun entry => String.eqb (fst entry) ty)
                 (w ++ hookListeners mode run sc))) e s =
  callListeners (listenersFor ty (addEventListeners mode sc)) e s.
Proof.
  intros H. rewrite filter_app, map_app, callListeners_app.
  now rewrite (foreign_called ty w e s H), hookListeners_called.
Qed.

Lemma mountOn_tracks w0 :
  noHookCallback w0 = true -> tracks mode w0 (mountOn mode w0) mount.
Proof.
  intros H. repeat split; simpl.
  rewrite <- (app_nil_r w0) at 1.
  now rewrite (effect_after_foreign 0 initialState w0 [] H), effect_nil.
Qed.

Lemma deliver_tracks w0 c h e :
  noHookCallback w0 = true ->
  tracks mode w0 c h ->
  tracks mode w0 (deliver mode c e) (dispatchEvent mode h e).
Proof.
  intros H (Hst & Hsc & Hw). unfold deliver, dispatchEvent, render.
  rewrite Hw, (window_called (type e) w0 _ _ e _ H), Hst, Hsc.
  destruct (depsChanged _ _); repeat split; simpl; try congruence.
  rewrite <- Hsc.
  rewrite (cleanup_after_foreign _ _ w0 _ H), cleanup_hookListeners.
  now rewrite (effect_after_foreign _ _ w0 [] H), effect_nil.
Qed.

Lemma deliverAll_tracks w0 es :
  noHookCallback w0 = true ->
  forall c h, tracks mode w0 c h ->
    tracks mode w0 (deliverAll mode c es) (dispatchAll mode h es).
Proof.
  intros H. induction es as [| e es IH]; intros c h T; simpl; [exact T |].
  apply IH. now apply deliver_tracks.
Qed.

End Window.

(** X11.  With the registry of [window] written out -- every
    [addEventListener] of the effect and every [removeEventListener] of its
    cleanup -- the component goes through the same states as the hook of
    the first part, and after any run of events the registry is the entries
    of other code, untouched and in their order, followed by the closures
    of the latest effect run only: no listener of an earlier run stays
    registered. *)
Theorem registry_holds_latest_closures :
  forall mode w0 es,
    noHookCallback w0 = true ->
    let c := deliverAll mode (mountOn mode w0) es in
    let h := dispatchAll mode mount es in
    comp_state c = rendered h /\ comp_scope c = scope h /\
    comp_window c =
      (w0 ++ hookListeners mode (comp_run c) (comp_scope c))%list.
Proof.
  intros mode w0 es H.
  apply (deliverAll_tracks mode w0 es H), mountOn_tracks, H.
Qed.

Lemma registry_holds_latest_closures_witness :
  let es := [mouseAt mousedown 1 1; mouseAt mousemove 4 5;
             mouseAt mouseup 4 5] in
  let c := deliverAll both (mountOn both [("mousedown", OtherCallback 7)])
             es in
  let h := dispatchAll both mount es in
  comp_state c = rendered h /\ comp_scope c = scope h /\
  comp_window c =
    ([("mousedown", OtherCallback 7)] ++
     hookListeners both (comp_run c) (comp_scope c))%list.
Proof.
  apply (registry_holds_latest_closures both
           [("mousedown", OtherCallback 7)]
           [mouseAt mousedown 1 1; mouseAt mousemove 4 5;
            mouseAt mouseup 4 5]).
  reflexivity.
Defined.

(** X12.  Unmounting after any run of events leaves the registry of
    [window] exactly as it was before the hook was mounted. *)
Theorem unmount_restores_registry :
  forall mode w0 es,
    noHookCallback w0 = true ->
    unmount mode (deliverAll mode (mountOn mode w0) es) = w0.
Proof.
  intros mode w0 es H.
  destruct (deliverAll_tracks mode w0 es H _ _ (mountOn_tracks mode w0 H))
    as (_ & _ & Hw).
  unfold unmount. rewrite Hw.
  rewrite (cleanup_after_foreign mode _ _ w0 _ H), cleanup_hookListeners.
  apply app_nil_r.
Qed.

Lemma unmount_restores_registry_witness :
  unmount touch
    (deliverAll touch (mountOn touch [("touchend", OtherCallback 3)])
       [touchAt touchstart 1 1; touchAt touchmove 4 5]) =
  [("touchend", OtherCallback 3)].
Proof.
  apply (unmount_restores_registry touch [("touchend", OtherCallback 3)]
           [touchAt touchstart 1 1; touchAt touchmove 4 5]).
  reflexivity.
Defined.

(** X13.  The cleanup is safe to repeat: on a registry that holds none of
    the hook's closures it removes nothing, so running it without a
    subscription, or again after an unmount, changes nothing. *)
Theorem cleanup_without_subscription_is_noop :
  (forall mode run sc w0,
      noHookCallback w0 = true -> cleanup mode run sc w0 = w0) /\
  (forall mode w0 es,
      noHookCallback w0 = true ->
      let c := deliverAll mode (mountOn mode w0) es in
      cleanup mode (comp_run c) (comp_scope c) (unmount mode c) =
      unmount mode c).
Proof.
  assert (Hnoop : forall mode run sc w0,
             noHookCallback w0 = true -> cleanup mode run sc w0 = w0).
  { intros mode run sc w0 H.
    rewrite <- (app_nil_r w0) at 1.
    rewrite (cleanup_after_foreign mode run sc w0 [] H), cleanup_nil.
    apply app_nil_r. }
  split; [exact Hnoop |].
  intros mode w0 es H; cbv zeta.
  destruct (deliverAll_tracks mode w0 es H _ _ (mountOn_tracks mode w0 H))
    as (_ & _ & Hw).
  unfold unmount. rewrite Hw.
  rewrite (cleanup_after_foreign mode _ _ w0 _ H), cleanup_hookListeners.
  rewrite app_nil_r. now apply Hnoop.
Qed.

Lemma cleanup_without_subscription_is_noop_witness :
  cleanup both 0 initialState [("mouseup", OtherCallback 1)] =
  [("mouseup", OtherCallback 1)].
Proof.
  apply (proj1 cleanup_without_subscription_is_noop both 0%nat
           initialState [("mouseup", OtherCallback 1)]).
  reflexivity.
Defined.

(** * The consumers of the README *)

Section Consumers.

Lemma closed_or_open o :
  negb (Z.eqb o 1 || Z.eqb o 2) = true \/ (Z.eqb o 1 || Z.eqb o 2) = true.
Proof. destruct (Z.eqb o 1 || Z.eqb o 2); auto. Qed.

Lemma getTransform_not_down o d top :
  d <= 0 ->
  getTransform o d top =
  if Z.eqb o 1 || Z.eqb o 2 then "0px" else "100%".
Proof.
  intros Hd. unfold getTransform.
  destruct (Z.eqb o 1 || Z.eqb o 2); simpl; [| reflexivity].
  rewrite Z.gtb_ltb. destruct (Z.ltb_spec 0 d); [lia | reflexivity].
Qed.

Lemma getHeight_zero q o top bottom :
  getHeight q o 0 top bottom =
  if Z.eqb o 1 || Z.eqb o 2 then None else Some "70%".
Proof.
  unfold getHeight.
  destruct (Z.eqb o 1 || Z.eqb o 2); simpl; [| reflexivity].
  now destruct (Z.eqb o 1).
Qed.

End Consumers.

(** X14.  [getTransform] never moves the sheet for an upward or zero delta:
    it returns "0px" for an open sheet and "100%" for a closed one.  Fed
    with the [deltaY] of the hook, that is its result whenever the pointer
    is up. *)
Theorem getTransform_rests_when_pointer_up :
  (forall o d top,
      d <= 0 ->
      getTransform o d top =
      if Z.eqb o 1 || Z.eqb o 2 then "0px" else "100%") /\
  (forall mode h o top,
      reachable mode h ->
      snap_isMouseDown (useMouseDelta h) = false ->
      getTransform o (snap_deltaY (useMouseDelta h)) top =
      if Z.eqb o 1 || Z.eqb o 2 then "0px" else "100%").
Proof.
  split; [exact getTransform_not_down |].
  intros mode h o top Hr Hd; simpl in *.
  destruct (reachable_restInvariant mode h Hr) as [_ Hrest].
  destruct (Hrest Hd) as (_ & Dy & _).
  rewrite Dy. now apply getTransform_not_down.
Qed.

Lemma getTransform_rests_when_pointer_up_witness :
  getTransform 1 (-40) true = if Z.eqb 1 1 || Z.eqb 1 2 then "0px" else "100%".
Proof.
  apply (proj1 getTransform_rests_when_pointer_up 1 (-40) true). lia.
Defined.

(** X15.  Whenever the pointer is up, [getHeight] fed with the [deltaY] of
    the hook returns no height ([undefined]) for an open sheet and "70%"
    for a closed one, whatever the scroll flags are. *)
Theorem getHeight_rests_when_pointer_up :
  forall q mode h o top bottom,
    reachable mode h ->
    snap_isMouseDown (useMouseDelta h) = false ->
    getHeight q o (snap_deltaY (useMouseDelta h)) top bottom =
    if Z.eqb o 1 || Z.eqb o 2 then None else Some "70%".
Proof.
  intros q mode h o top bottom Hr Hd; simpl in *.
  destruct (reachable_restInvariant mode h Hr) as [_ Hrest].
  destruct (Hrest Hd) as (_ & Dy & _).
  rewrite Dy. apply getHeight_zero.
Qed.

Lemma getHeight_rests_when_pointer_up_witness :
  let h := dispatchAll both mount
             [touchAt touchstart 5 5; touchAt touchmove 5 300;
              touchEndAt 5 300] in
  getHeight numberToString 2 (snap_deltaY (useMouseDelta h)) true true =
  if Z.eqb 2 1 || Z.eqb 2 2 then None else Some "70%".
Proof.
  apply (getHeight_rests_when_pointer_up numberToString both
           (dispatchAll both mount
              [touchAt touchstart 5 5; touchAt touchmove 5 300;
               touchEndAt 5 300]) 2 true true); [| reflexivity].
  exists [touchAt touchstart 5 5; touchAt touchmove 5 300; touchEndAt 5 300].
  reflexivity.
Defined.

(** * Summaries of a run *)

Section Runs.

Variable mode : Mode.

Lemma hasPoint_coordinates e :
  hasPoint e = true -> exists x y, getX e = Normal x /\ getY e = Normal y.
Proof.
  unfold hasPoint. intros H.
  destruct (getX_getY_agree e) as [(x & y & Hx & Hy) | [_ Hy]].
  - eauto.
  - rewrite Hy in H. discriminate.
Qed.

Lemma hasPoint_false e : hasPoint e = false -> getY e = Throw TypeError.
Proof.
  unfold hasPoint. intros H.
  destruct (getX_getY_agree e) as [(x & y & _ & Hy) | [_ Hy]].
  - rewrite Hy in H. discriminate.
  - exact Hy.
Qed.

(** Only a press that is listened to and carries a point writes the origin
    and the touched element. *)
Lemma dispatch_other_frame h e :
  recordsPress mode e = false ->
  let s' := rendered (dispatchEvent mode h e) in
  touchedElement s' = touchedElement (rendered h) /\
  lastX s' = lastX (rendered h) /\ lastY s' = lastY (rendered h).
Proof.
  unfold recordsPress. intros H.
  destruct (isPress e) eqn:Hp; [| now apply dispatch_nonpress_frame].
  rewrite dispatchEvent_eq.
  destruct (subscribed mode e); [| now repeat split].
  simpl in H. apply hasPoint_false in H.
  rewrite (isPress_listenerOf _ _ Hp); simpl.
  rewrite (onMouseDown_throw e _ H); simpl. now repeat split.
Qed.

Lemma dispatch_originOf h e acc :
  originOf acc (rendered h) ->
  originOf (if recordsPress mode e then Some e else acc)
           (rendered (dispatchEvent mode h e)).
Proof.
  intros Hacc. destruct (recordsPress mode e) eqn:R.
  - unfold recordsPress in R. apply andb_true_iff in R as [R Hpt].
    apply andb_true_iff in R as [Hp Hsub].
    destruct (hasPoint_coordinates e Hpt) as (x & y & Hx & Hy).
    rewrite dispatchEvent_eq, Hsub, (isPress_listenerOf _ _ Hp); simpl.
    rewrite (onMouseDown_ok e _ x y Hx Hy); simpl. auto.
  - destruct (dispatch_other_frame h e R) as (Ft & Fx & Fy).
    unfold originOf in *. simpl in *. now rewrite Ft, Fx, Fy.
Qed.

Lemma dispatchAll_originOf es :
  forall h acc,
    originOf acc (rendered h) ->
    originOf (lastPress mode es acc) (rendered (dispatchAll mode h es)).
Proof.
  induction es as [| e es IH]; intros h acc Hacc; simpl; [exact Hacc |].
  apply IH. now apply dispatch_originOf.
Qed.

Lemma dispatch_isMouseDown h e :
  isMouseDown (rendered (dispatchEvent mode h e)) =
  if subscribed mode e then
    if isPress e then true
    else if isRelease e then false
    else isMouseDown (rendered h)
  else isMouseDown (rendered h).
Proof.
  rewrite dispatchEvent_eq.
  destruct (subscribed mode e); [| reflexivity]. simpl.
  destruct (isPress e) eqn:Hp.
  - rewrite (isPress_listenerOf _ _ Hp). apply onMouseDown_pressed.
  - destruct (event_class e) as [Hp' | [Hm | Hrel]]; [congruence | |].
    + assert (Hrel : isRelease e = false)
        by (destruct e as [[] ? ? ? | [] ? ? ?]; simpl in *; congruence).
      rewrite Hrel, (isMove_listenerOf _ _ Hm).
      now destruct (onMouseMove_frame (scope h) e (rendered h))
        as (_ & _ & Fd & _).
    + now rewrite Hrel, (isRelease_listenerOf _ _ Hrel).
Qed.

End Runs.

(** X16.  After any run of events the stored origin and [touchedElement]
    are those of the last press of the run that the mode listens to and
    that carries a point; they have their initial values (0, 0, null) when
    there is no such press.  Moves, releases, presses of the other device
    class and presses without a touch point never write them. *)
Theorem origin_is_last_recorded_press :
  forall mode es,
    originOf (lastPress mode es None)
             (rendered (dispatchAll mode mount es)).
Proof.
  intros mode es. apply dispatchAll_originOf. repeat split.
Qed.

(** X17.  After any run of events [isMouseDown] tells whether the last
    press or release that the mode listens to was a press, whether or not
    that press carried a point. *)
Theorem pressed_is_last_press_or_release :
  forall mode h es,
    isMouseDown (rendered (dispatchAll mode h es)) =
    pressedAfter mode es (isMouseDown (rendered h)).
Proof.
  intros mode h es. revert h.
  induction es as [| e es IH]; intros h; simpl; [reflexivity |].
  unfold pressedAfter in *; simpl.
  now rewrite IH, dispatch_isMouseDown.
Qed.

(** X18.  A press delivered while pressed that changes the origin's Y
    re-registers the listeners: the next move measures both deltas from the
    new origin. *)
Theorem second_press_on_new_row_moves_origin :
  forall mode h p e px py x y,
    isMouseDown (rendered h) = true ->
    isPress p = true -> subscribed mode p = true ->
    getX p = Normal px -> getY p = Normal py ->
    py <> lastY (rendered h) ->
    isMove e = true -> subscribed mode e = true ->
    getX e = Normal x -> getY e = Normal y ->
    let s' := rendered (dispatchEvent mode (dispatchEvent mode h p) e) in
    deltaX s' = x - px /\ deltaY s' = y - py.
Proof.
  intros mode h p e px py x y Hd Hp Hsp Hpx Hpy Hrow Hm Hsub Hx Hy.
  cbv zeta.
  rewrite (dispatch_press_pressed mode h p px py Hd Hp Hsp Hpx Hpy).
  assert (E : Z.eqb (lastY (rendered h)) py = false)
    by (apply Z.eqb_neq; congruence).
  rewrite E.
  rewrite (dispatch_move_pressed mode _ e x y);
    [| reflexivity | reflexivity | assumption ..].
  simpl. auto.
Qed.

Lemma second_press_on_new_row_moves_origin_witness :
  let h := dispatchAll both mount
             [mouseAt mousedown 100 100; mouseAt mousemove 150 120] in
  let s' := rendered (dispatchEvent both
                        (dispatchEvent both h (mouseAt mousedown 200 130))
                        (mouseAt mousemove 210 135)) in
  deltaX s' = 210 - 200 /\ deltaY s' = 135 - 130.
Proof.
  apply (second_press_on_new_row_moves_origin both
           (dispatchAll both mount
              [mouseAt mousedown 100 100; mouseAt mousemove 150 120])
           (mouseAt mousedown 200 130) (mouseAt mousemove 210 135)
           200 130 210 135); try reflexivity.
  discriminate.
Defined.
